(** * netdiff: the parser base class ([netdiff/parsers/base.py])

    A shallow embedding of [BaseParser]: the resolution of a data reference
    ([to_python] with [_get_file], [_get_http], [_get_telnet]), the
    construction of a parser ([__init__]), the NetJSON output ([json]) and the
    subtraction operator ([__sub__]).

    Python values are an inductive type, exceptions are an error type, and the
    calls that leave the module (HTTP, telnet, the filesystem, the JSON
    decoder) are answered by a record of oracles and logged in a trace. *)

From Stdlib Require Import String Ascii List ZArith Bool Lia DecimalString.
Import ListNotations.
Open Scope string_scope.
Set Warnings "-register-all".

(** ** Python values *)

(** The values that travel through the parser.  [PDict] keeps its items in
    insertion order, as [dict] and [OrderedDict] do.  [PObj] stands for any other
    object (a float, a byte string, a custom class instance ...), told apart
    by a tag. *)
Inductive pyvalue : Type :=
| PNone
| PBool (b : bool)
| PInt (z : Z)
| PStr (s : string)
| PList (l : list pyvalue)
| PDict (items : list (string * pyvalue))
| PObj (tag : nat).

(** Truth value of an object, as tested by [if x:]. *)
Definition truthy (v : pyvalue) : bool :=
  match v with
  | PNone => false
  | PBool b => b
  | PInt z => negb (Z.eqb z 0)
  | PStr s => negb (String.eqb s EmptyString)
  | PList l => match l with [] => false | _ => true end
  | PDict d => match d with [] => false | _ => true end
  | PObj _ => true
  end.

(** [x is None] *)
Definition is_None (v : pyvalue) : bool :=
  match v with PNone => true | _ => false end.

(** [x == s] for a string literal [s]. *)
Definition eq_str (v : pyvalue) (s : string) : bool :=
  match v with PStr t => String.eqb t s | _ => false end.

(** [isinstance(x, dict)] and [isinstance(x, six.string_types)] *)
Definition isinstance_dict (v : pyvalue) : bool :=
  match v with PDict _ => true | _ => false end.

Definition isinstance_string (v : pyvalue) : bool :=
  match v with PStr _ => true | _ => false end.

(** Structural equality of values ([==]). *)
Fixpoint pyvalue_eqb (a b : pyvalue) {struct a} : bool :=
  match a, b with
  | PNone, PNone => true
  | PBool x, PBool y => Bool.eqb x y
  | PInt x, PInt y => Z.eqb x y
  | PStr x, PStr y => String.eqb x y
  | PList x, PList y =>
      (fix list_eqb (l1 l2 : list pyvalue) : bool :=
         match l1, l2 with
         | [], [] => true
         | v1 :: t1, v2 :: t2 => pyvalue_eqb v1 v2 && list_eqb t1 t2
         | _, _ => false
         end) x y
  | PDict x, PDict y =>
      (fix items_eqb (l1 l2 : list (string * pyvalue)) : bool :=
         match l1, l2 with
         | [], [] => true
         | (k1, v1) :: t1, (k2, v2) :: t2 =>
             String.eqb k1 k2 && pyvalue_eqb v1 v2 && items_eqb t1 t2
         | _, _ => false
         end) x y
  | PObj x, PObj y => Nat.eqb x y
  | _, _ => false
  end.

(** [d[k]] on the items of a dict: the value of the first item with key [k]. *)
Fixpoint dict_get (k : string) (d : list (string * pyvalue)) : option pyvalue :=
  match d with
  | [] => None
  | (k', v) :: rest => if String.eqb k k' then Some v else dict_get k rest
  end.

(** The keys of a dict, in order. *)
Definition dict_keys (d : list (string * pyvalue)) : list string :=
  map fst d.

(** ** Exceptions *)

(** An exception raised inside a library (requests, telnetlib, [open], ...),
    known only by its class name. *)
Inductive lib_error : Type :=
| LibError (name : string).

(** What a [TopologyRetrievalError] was built from: the exception it wraps or
    the unexpected HTTP status. *)
Inductive retrieval_cause : Type :=
| CausedBy (e : lib_error)
| BadStatus (status_code : Z).

(** [netdiff.exceptions] (imported by the module) and the built-in
    exceptions that can leave it. *)
Inductive exn : Type :=
| ParserError (msg : string)
| ParserJsonError (msg : string)
| NetJsonError (msg : string)
| TopologyRetrievalError (cause : retrieval_cause)
| NotImplementedError
| TypeError
| ValueError
| KeyError (key : string)
| Propagated (e : lib_error).

Inductive outcome (A : Type) : Type :=
| Ok (a : A)
| Raise (e : exn).
Arguments Ok {A} a.
Arguments Raise {A} e.

(** ** Calls that leave the module *)

Inductive event : Type :=
| EvRequestsGet (url : string) (verify timeout : pyvalue)
| EvTelnetOpen (host port timeout : pyvalue)
| EvTelnetWrite (bs : list ascii)
| EvTelnetReadAll
| EvTelnetClose
| EvOpenRead (path : string)
| EvJsonLoads (data : pyvalue).

(** The value of [urlparse.urlparse]: the attributes the module reads.
    [port] is [None] when reading the attribute raises [ValueError]. *)
Record ParseResult : Type := mkParseResult {
  scheme : string;
  hostname : pyvalue;
  port : option pyvalue;
  geturl : string
}.

(** A [requests] response: [status_code] and the result of
    [content.decode()]. *)
Record Response : Type := mkResponse {
  status_code : Z;
  content_decode : lib_error + string
}.

(** An open telnet connection: whether [write] fails and what [read_all]
    returns. *)
Record Telnet : Type := mkTelnet {
  tn_write : list ascii -> option lib_error;
  tn_read_all : lib_error + list ascii
}.

(** The libraries and the outside world, as oracles.  [urlparse] gives
    the error it raises (a [ValueError], on a netloc with an unmatched
    bracket for one) or the parsed URL. *)
Record World : Type := mkWorld {
  urlparse : string -> lib_error + ParseResult;
  requests_get : string -> pyvalue -> pyvalue -> lib_error + Response;
  telnetlib_Telnet : pyvalue -> pyvalue -> pyvalue -> lib_error + Telnet;
  open_read : string -> lib_error + string;
  json_decode : string -> option pyvalue;
  json_dumps : pyvalue -> list (string * pyvalue) -> lib_error + string
}.

(** ** The monad of the module: a trace of events and exceptions *)

Definition M (A : Type) : Type := list event -> outcome A * list event.

Definition ret {A} (a : A) : M A := fun tr => (Ok a, tr).

Definition raise {A} (e : exn) : M A := fun tr => (Raise e, tr).

Definition bind {A B} (m : M A) (k : A -> M B) : M B :=
  fun tr =>
    match m tr with
    | (Ok a, tr') => k a tr'
    | (Raise e, tr') => (Raise e, tr')
    end.

Definition emit (ev : event) : M unit := fun tr => (Ok tt, (tr ++ [ev])%list).

Definition lift {A} (o : outcome A) : M A := fun tr => (o, tr).

Notation "x <- m ;; k" := (bind m (fun x => k))
  (at level 61, m at next level, right associativity).
Notation "m ;;; k" := (bind m (fun _ => k))
  (at level 61, right associativity).

(** ** Strings *)

(** [sub in s] *)
Fixpoint contains (sub s : string) : bool :=
  String.prefix sub s ||
  match s with
  | EmptyString => false
  | String _ rest => contains sub rest
  end.

(** [s.startswith(p)] *)
Definition startswith (s p : string) : bool := String.prefix p s.

(** [s[1:3]] *)
Definition slice_1_3 (s : string) : string := String.substring 1 2 s.

(** [bs.decode('ascii')]: fails on a byte above 127. *)
Definition decode_ascii (bs : list ascii) : lib_error + string :=
  if forallb (fun c => Nat.ltb (nat_of_ascii c) 128) bs
  then inr (string_of_list_ascii bs)
  else inl (LibError "UnicodeDecodeError").

(** [s.encode('ascii')] for a literal without a byte above 127. *)
Definition encode_ascii (s : string) : list ascii := list_ascii_of_string s.

Definition CRLF : string := String (ascii_of_nat 13) (String (ascii_of_nat 10) EmptyString).

(** ** The graph and the parser object *)

(** The part of a networkx graph the module reads: [graph.nodes()] and
    [graph.edges(data=True)], each edge with its attribute dict. *)
Record Graph : Type := mkGraph {
  nodes : list pyvalue;
  edges : list (pyvalue * pyvalue * list (string * pyvalue))
}.

(** An instance of a parser.  The four protocol attributes hold what an
    attribute lookup finds (the instance attribute, else the class
    attribute); [graph] is [None] as long as the attribute is not set. *)
Record Parser : Type := mkParser {
  protocol : pyvalue;
  version : pyvalue;
  revision : pyvalue;
  metric : pyvalue;
  timeout : pyvalue;
  verify : pyvalue;
  original_data : pyvalue;
  graph : option Graph
}.

(** A parser class: its class-level attributes and its [parse] method, which
    returns the instance as it has left it. *)
Record ParserClass : Type := mkParserClass {
  is_BaseParser : bool;
  cls_protocol : pyvalue;
  cls_version : pyvalue;
  cls_revision : pyvalue;
  cls_metric : pyvalue;
  parse : Parser -> pyvalue -> M Parser
}.

(** [class BaseParser(object)] *)
Definition BaseParser : ParserClass :=
  {| is_BaseParser := true;
     cls_protocol := PNone;
     cls_version := PNone;
     cls_revision := PNone;
     cls_metric := PNone;
     parse := fun _ _ => raise NotImplementedError |}.

(** [try: m except ValueError: handler] *)
Definition try_except_ValueError {A} (m : M A) (handler : M A) : M A :=
  fun tr =>
    match m tr with
    | (Raise ValueError, tr') => handler tr'
    | r => r
    end.

Section Methods.

Context (w : World).

(** [json.loads(data)], which [to_python] reaches with a string or with
    [None]: a [TypeError] for what is not a string, a [ValueError] for a
    string that is not a JSON document. *)
Definition json_loads (data : pyvalue) : M pyvalue :=
  emit (EvJsonLoads data) ;;;
  match data with
  | PStr s =>
      match json_decode w s with
      | Some v => ret v
      | None => raise ValueError
      end
  | _ => raise TypeError
  end.

Definition _get_file (self : Parser) (path : string) : M pyvalue :=
  emit (EvOpenRead path) ;;;
  match open_read w path with
  | inr text => ret (PStr text)
  | inl e => raise (TopologyRetrievalError (CausedBy e))
  end.

Definition _get_http (self : Parser) (url : ParseResult) : M pyvalue :=
  emit (EvRequestsGet (geturl url) (verify self) (timeout self)) ;;;
  match requests_get w (geturl url) (verify self) (timeout self) with
  | inl e => raise (TopologyRetrievalError (CausedBy e))
  | inr response =>
      if negb (Z.eqb (status_code response) 200)
      then raise (TopologyRetrievalError (BadStatus (status_code response)))
      else
        match content_decode response with
        | inr text => ret (PStr text)
        | inl e => raise (Propagated e)
        end
  end.

(** The function ends without a [return]: its value is [None]. *)
Definition _get_telnet (self : Parser) (url : ParseResult) : M pyvalue :=
  match port url with
  | None => raise (TopologyRetrievalError (CausedBy (LibError "ValueError")))
  | Some url_port =>
      emit (EvTelnetOpen (hostname url) url_port (timeout self)) ;;;
      match telnetlib_Telnet w (hostname url) url_port (timeout self) with
      | inl e => raise (TopologyRetrievalError (CausedBy e))
      | inr tn =>
          emit (EvTelnetWrite (encode_ascii CRLF)) ;;;
          match tn_write tn (encode_ascii CRLF) with
          | Some e => raise (Propagated e)
          | None =>
              emit EvTelnetReadAll ;;;
              match tn_read_all tn with
              | inl e => raise (Propagated e)
              | inr bs =>
                  match decode_ascii bs with
                  | inl e => raise (Propagated e)
                  | inr data =>
                      emit EvTelnetClose ;;;
                      ret PNone
                  end
              end
          end
      end
  end.

(** The test [True in [data.startswith('./'), ...]] of [to_python]. *)
Definition looks_like_path (data : string) : bool :=
  existsb (fun b => b)
    [ startswith data "./";
      startswith data "../";
      startswith data "/";
      startswith data ".\";
      startswith data "..\";
      startswith data "\";
      startswith (slice_1_3 data) ":\" ].

(** Lines 70 to 84 of [to_python]: what [data] holds when the decoding
    starts, for a string [s]. *)
Definition fetch_data (self : Parser) (s : string) : M pyvalue :=
  let data := PStr s in
  if contains "://" s then
    match urlparse w s with
    | inl e => raise (Propagated e)
    | inr url =>
        data <- (if existsb (String.eqb (scheme url)) ["http"; "https"]
                 then _get_http self url else ret data) ;;
        (if String.eqb (scheme url) "telnet"
         then _get_telnet self url else ret data)
    end
  else if looks_like_path s then _get_file self s
  else ret data.

(** Lines 86 to 89 of [to_python]: the decoding of [data]. *)
Definition decode_data (data : pyvalue) : M pyvalue :=
  try_except_ValueError
    (json_loads data)
    (raise (ParserJsonError "Could not decode JSON data")).

Definition to_python (self : Parser) (data : pyvalue) : M pyvalue :=
  match data with
  | PDict _ => ret data
  | PStr s =>
      data <- fetch_data self s ;;
      decode_data data
  | _ => raise (ParserError "Could not find valid data to parse")
  end.

(** Lines 40 to 47 of [__init__]: the attributes of the new instance. *)
Definition init_attributes (cls : ParserClass)
    (version revision metric timeout verify : pyvalue) : Parser :=
  {| protocol := cls_protocol cls;
     version := if truthy version then version else cls_version cls;
     revision := if truthy revision then revision else cls_revision cls;
     metric := if truthy metric then metric else cls_metric cls;
     timeout := timeout;
     verify := verify;
     original_data := PNone;
     graph := None |}.

Definition set_original_data (self : Parser) (data : pyvalue) : Parser :=
  {| protocol := protocol self;
     version := version self;
     revision := revision self;
     metric := metric self;
     timeout := timeout self;
     verify := verify self;
     original_data := data;
     graph := graph self |}.

Definition __init__ (cls : ParserClass) (data : pyvalue)
    (version revision metric timeout verify : pyvalue) : M Parser :=
  let self := init_attributes cls version revision metric timeout verify in
  data' <- to_python self data ;;
  let self := set_original_data self data' in
  if negb (is_BaseParser cls) then parse cls self data' else ret self.

(** The loop of [json] over [graph.edges(data=True)]. *)
Fixpoint json_links (edges : list (pyvalue * pyvalue * list (string * pyvalue)))
    (links : list pyvalue) : outcome (list pyvalue) :=
  match edges with
  | [] => Ok links
  | (source, target, attrs) :: rest =>
      match dict_get "weight" attrs with
      | Some weight =>
          json_links rest
            (links ++ [PDict [("source", source);
                              ("target", target);
                              ("weight", weight)]])%list
      | None => Raise (KeyError "weight")
      end
  end.

Definition json (self : Parser) (dict : bool)
    (args : list (string * pyvalue)) : M pyvalue :=
  match graph self with
  | None => raise NotImplementedError
  | Some graph =>
      if is_None (protocol self)
      then raise (NetJsonError "protocol cannot be None")
      else if is_None (version self)
      then raise (NetJsonError "version cannot be None")
      else if is_None (metric self) && negb (eq_str (protocol self) "static")
      then raise (NetJsonError "metric cannot be None")
      else
        let nodes := map (fun node => PDict [("id", node)]) (nodes graph) in
        links <- lift (json_links (edges graph) []) ;;
        let data := PDict [("type", PStr "NetworkGraph");
                           ("protocol", protocol self);
                           ("version", version self);
                           ("revision", revision self);
                           ("metric", metric self);
                           ("nodes", PList nodes);
                           ("links", PList links)] in
        if dict then ret data
        else
          match json_dumps w data args with
          | inr text => ret (PStr text)
          | inl e => raise (Propagated e)
          end
  end.

End Methods.

(** ** The diff of two parsers *)

(** A link of the canonical graph: source, target and weight (absent when the
    edge carries none). *)
Definition link : Type := pyvalue * pyvalue * option pyvalue.

Definition links_of (g : Graph) : list link :=
  map (fun '(source, target, attrs) => (source, target, dict_get "weight" attrs))
      (edges g).

Definition same_pair (a b : link) : bool :=
  let '(s1, t1, _) := a in
  let '(s2, t2, _) := b in
  pyvalue_eqb s1 s2 && pyvalue_eqb t1 t2.

Definition same_weight (a b : link) : bool :=
  match snd a, snd b with
  | Some x, Some y => pyvalue_eqb x y
  | None, None => true
  | _, _ => false
  end.

(** The [(source, target)] pair of [l] is absent from [ls]. *)
Definition pair_absent (ls : list link) (l : link) : bool :=
  negb (existsb (same_pair l) ls).

(** The pair of [l] is in [ls] with a different weight. *)
Definition different_weight (ls : list link) (l : link) : bool :=
  existsb (fun l' => same_pair l l' && negb (same_weight l l')) ls.

(** The pair of [l] is in [ls] with the same weight. *)
Definition unchanged (ls : list link) (l : link) : bool :=
  existsb (fun l' => same_pair l l' && same_weight l l') ls.

(** The delta of two graphs, with the metadata of the new one. *)
Record Delta : Type := mkDelta {
  delta_protocol : pyvalue;
  delta_version : pyvalue;
  delta_revision : pyvalue;
  delta_metric : pyvalue;
  added_nodes : list pyvalue;
  added_links : list link;
  removed_nodes : list pyvalue;
  removed_links : list link
}.

(** The nodes of [b] that are absent from [a]. *)
Definition nodes_absent_from (a b : list pyvalue) : list pyvalue :=
  filter (fun n => negb (existsb (pyvalue_eqb n) a)) b.

(** The links of [b] whose pair is absent from [a] or is there with a
    different weight, the unchanged links left out. *)
Definition links_absent_from (a b : list link) : list link :=
  filter (fun l => (pair_absent a l || different_weight a l)
                   && negb (unchanged a l)) b.

(** Modelled from the spec: [netdiff.utils.diff], which [__sub__] calls and
    which is not part of the sources at hand.  Section 4.4: added nodes are
    the nodes of [new] absent from [old], removed nodes the nodes of [old]
    absent from [new]; added links are the links of [new] whose pair is absent
    in [old] or present with a different weight, removed links the mirror
    image; links with the same pair and the same weight in both graphs are in
    neither set; the metadata is that of [new].  Both arguments are parsed
    graphs: the result is [None] when one of them has no graph. *)
Definition diff (old new : Parser) : option Delta :=
  match graph old, graph new with
  | Some g_old, Some g_new =>
      Some {| delta_protocol := protocol new;
              delta_version := version new;
              delta_revision := revision new;
              delta_metric := metric new;
              added_nodes := nodes_absent_from (nodes g_old) (nodes g_new);
              added_links := links_absent_from (links_of g_old) (links_of g_new);
              removed_nodes := nodes_absent_from (nodes g_new) (nodes g_old);
              removed_links := links_absent_from (links_of g_new) (links_of g_old) |}
  | _, _ => None
  end.

Definition __sub__ (self other : Parser) : option Delta := diff other self.

(** ** The text form named by the spec *)

(** The serialized text form of a structured document, in the spec's words:
    the JSON encoding of the document, nothing else. *)
Definition text_form_of (w : World) (args : list (string * pyvalue))
    (document : pyvalue) : M pyvalue :=
  match json_dumps w document args with
  | inr text => ret (PStr text)
  | inl e => raise (Propagated e)
  end.

(** ** A world to run the module in *)

(** The oracles below answer the calls of the examples.  [Json.decode] reads
    the JSON documents made of [null], [true], [false], integers, strings
    with the one-letter escapes, arrays and objects; a document with a
    fraction, an exponent or a [\u] escape is outside of it. *)
Module Json.

Definition is_ws (c : ascii) : bool :=
  existsb (Ascii.eqb c) [" "; "009"; "010"; "013"]%char.

Fixpoint skip_ws (s : string) : string :=
  match s with
  | String c rest => if is_ws c then skip_ws rest else s
  | EmptyString => s
  end.

Fixpoint strip_prefix (p s : string) : option string :=
  match p, s with
  | EmptyString, _ => Some s
  | String a p', String b s' => if Ascii.eqb a b then strip_prefix p' s' else None
  | String _ _, EmptyString => None
  end.

Definition is_digit (c : ascii) : bool :=
  let n := nat_of_ascii c in Nat.leb 48 n && Nat.leb n 57.

Fixpoint scan_digits (s : string) (acc : Z) : Z * string :=
  match s with
  | String c rest =>
      if is_digit c
      then scan_digits rest (acc * 10 + Z.of_nat (nat_of_ascii c - 48))
      else (acc, s)
  | EmptyString => (acc, s)
  end.

(** [0], or a digit from 1 to 9 followed by digits. *)
Definition scan_int (s : string) : option (Z * string) :=
  match s with
  | String c rest =>
      if Ascii.eqb c "0" then Some (0%Z, rest)
      else if is_digit c then Some (scan_digits s 0)
      else None
  | EmptyString => None
  end.

Definition starts_fraction (s : string) : bool :=
  match s with
  | String c _ => existsb (Ascii.eqb c) ["."; "e"; "E"]%char
  | EmptyString => false
  end.

Definition scan_number (s : string) : option (pyvalue * string) :=
  let '(negative, digits) :=
    match s with
    | String c rest => if Ascii.eqb c "-" then (true, rest) else (false, s)
    | EmptyString => (false, s)
    end in
  match scan_int digits with
  | Some (z, rest) =>
      if starts_fraction rest then None
      else Some (PInt (if negative then - z else z), rest)
  | None => None
  end.

Definition unescape (c : ascii) : option ascii :=
  if Ascii.eqb c "034" then Some "034"%char
  else if Ascii.eqb c "\" then Some "\"%char
  else if Ascii.eqb c "/" then Some "/"%char
  else if Ascii.eqb c "b" then Some "008"%char
  else if Ascii.eqb c "f" then Some "012"%char
  else if Ascii.eqb c "n" then Some "010"%char
  else if Ascii.eqb c "r" then Some "013"%char
  else if Ascii.eqb c "t" then Some "009"%char
  else None.

(** The characters of a string after its opening quote, up to the closing
    one. *)
Fixpoint scan_string (s : string) : option (string * string) :=
  match s with
  | EmptyString => None
  | String c rest =>
      if Ascii.eqb c "034" then Some (EmptyString, rest)
      else if Ascii.eqb c "\" then
        match rest with
        | String e rest' =>
            match unescape e, scan_string rest' with
            | Some c', Some (text, after) => Some (String c' text, after)
            | _, _ => None
            end
        | EmptyString => None
        end
      else if Nat.ltb (nat_of_ascii c) 32 then None
      else
        match scan_string rest with
        | Some (text, after) => Some (String c text, after)
        | None => None
        end
  end.

(** [d[k] = v] on the items of a dict. *)
Fixpoint dict_set (k : string) (v : pyvalue) (d : list (string * pyvalue))
    : list (string * pyvalue) :=
  match d with
  | [] => [(k, v)]
  | (k', v') :: rest =>
      if String.eqb k k' then (k, v) :: rest else (k', v') :: dict_set k v rest
  end.

Inductive mode : Type :=
| Value
| Elements (acc : list pyvalue)
| Members (acc : list (string * pyvalue)).

Fixpoint scan (fuel : nat) (m : mode) (s : string) : option (pyvalue * string) :=
  match fuel with
  | O => None
  | S fuel =>
      let s := skip_ws s in
      match m with
      | Value =>
          match s with
          | EmptyString => None
          | String c rest =>
              if Ascii.eqb c "[" then
                match strip_prefix "]" (skip_ws rest) with
                | Some after => Some (PList [], after)
                | None => scan fuel (Elements []) rest
                end
              else if Ascii.eqb c "{" then
                match strip_prefix "}" (skip_ws rest) with
                | Some after => Some (PDict [], after)
                | None => scan fuel (Members []) rest
                end
              else if Ascii.eqb c "034" then
                match scan_string rest with
                | Some (text, after) => Some (PStr text, after)
                | None => None
                end
              else
                match strip_prefix "null" s, strip_prefix "true" s,
                      strip_prefix "false" s with
                | Some after, _, _ => Some (PNone, after)
                | _, Some after, _ => Some (PBool true, after)
                | _, _, Some after => Some (PBool false, after)
                | None, None, None => scan_number s
                end
          end
      | Elements acc =>
          match scan fuel Value s with
          | Some (v, after) =>
              match skip_ws after with
              | String c rest =>
                  if Ascii.eqb c "," then scan fuel (Elements (acc ++ [v])%list) rest
                  else if Ascii.eqb c "]" then Some (PList (acc ++ [v])%list, rest)
                  else None
              | EmptyString => None
              end
          | None => None
          end
      | Members acc =>
          match strip_prefix (String "034" EmptyString) s with
          | Some after_quote =>
              match scan_string after_quote with
              | Some (k, after_key) =>
                  match strip_prefix ":" (skip_ws after_key) with
                  | Some after_colon =>
                      match scan fuel Value after_colon with
                      | Some (v, after) =>
                          match skip_ws after with
                          | String c rest =>
                              if Ascii.eqb c ","
                              then scan fuel (Members (dict_set k v acc)) rest
                              else if Ascii.eqb c "}"
                              then Some (PDict (dict_set k v acc), rest)
                              else None
                          | EmptyString => None
                          end
                      | None => None
                      end
                  | None => None
                  end
              | None => None
              end
          | None => None
          end
      end
  end.

(** One document and nothing after it but white space. *)
Definition decode (s : string) : option pyvalue :=
  match scan (2 * String.length s + 2) Value s with
  | Some (v, after) =>
      match skip_ws after with
      | EmptyString => Some v
      | String _ _ => None
      end
  | None => None
  end.

End Json.

(** The encoder of the examples: the compact layout that [json.dumps] has
    by default, for ASCII strings, whatever the keyword arguments; an object
    that has no JSON form is a [TypeError]. *)
Module JsonEncode.

Definition quote : string := String "034" EmptyString.

Definition hex_digit (n : nat) : ascii :=
  ascii_of_nat (if Nat.ltb n 10 then 48 + n else 87 + n).

Definition escape_char (c : ascii) : string :=
  if Ascii.eqb c "034" then String "\" quote
  else if Ascii.eqb c "\" then "\\"
  else if Ascii.eqb c "010" then "\n"
  else if Ascii.eqb c "013" then "\r"
  else if Ascii.eqb c "009" then "\t"
  else if Ascii.eqb c "008" then "\b"
  else if Ascii.eqb c "012" then "\f"
  else if Nat.ltb (nat_of_ascii c) 32
  then "\u00" ++ String (hex_digit (nat_of_ascii c / 16))
                   (String (hex_digit (nat_of_ascii c mod 16)) EmptyString)
  else String c EmptyString.

Fixpoint escape (s : string) : string :=
  match s with
  | EmptyString => EmptyString
  | String c rest => escape_char c ++ escape rest
  end.

Definition encode_str (s : string) : string := quote ++ escape s ++ quote.

Fixpoint join (sep : string) (parts : list string) : string :=
  match parts with
  | [] => EmptyString
  | [p] => p
  | p :: rest => p ++ sep ++ join sep rest
  end.

Fixpoint all_ok {A} (l : list (option A)) : option (list A) :=
  match l with
  | [] => Some []
  | Some a :: rest =>
      match all_ok rest with Some r => Some (a :: r) | None => None end
  | None :: _ => None
  end.

Fixpoint encode (v : pyvalue) : option string :=
  match v with
  | PNone => Some "null"
  | PBool true => Some "true"
  | PBool false => Some "false"
  | PInt z => Some (DecimalString.NilZero.string_of_int (Z.to_int z))
  | PStr s => Some (encode_str s)
  | PList l =>
      match all_ok (map encode l) with
      | Some parts => Some ("[" ++ join ", " parts ++ "]")
      | None => None
      end
  | PDict d =>
      match all_ok (map (fun kv => match encode (snd kv) with
                                   | Some t => Some (encode_str (fst kv) ++ ": " ++ t)
                                   | None => None
                                   end) d) with
      | Some parts => Some ("{" ++ join ", " parts ++ "}")
      | None => None
      end
  | PObj _ => None
  end.

Definition dumps (v : pyvalue) (args : list (string * pyvalue))
    : lib_error + string :=
  match encode v with
  | Some text => inr text
  | None => inl (LibError "TypeError")
  end.

End JsonEncode.

(** [urlparse] for a URL without user information, bracketed host, leading
    blanks or embedded line breaks: the scheme is what stands before the
    first colon when it starts with a letter and is made of letters, digits,
    [+], [-] and [.]; host and port are read from what stands between [//]
    and the next [/], [?] or [#]; a netloc with one bracket and not the
    other is a [ValueError]. *)
Module Url.

Definition is_alpha (c : ascii) : bool :=
  let n := nat_of_ascii c in
  (Nat.leb 65 n && Nat.leb n 90) || (Nat.leb 97 n && Nat.leb n 122).

Definition is_scheme_char (c : ascii) : bool :=
  is_alpha c || Json.is_digit c || existsb (Ascii.eqb c) ["+"; "-"; "."]%char.

Definition lower_char (c : ascii) : ascii :=
  let n := nat_of_ascii c in
  if Nat.leb 65 n && Nat.leb n 90 then ascii_of_nat (n + 32) else c.

Fixpoint lower (s : string) : string :=
  match s with
  | EmptyString => EmptyString
  | String c rest => String (lower_char c) (lower rest)
  end.

(** [s.partition(c)]: what stands before the first [c], whether there is
    one, and what stands after it. *)
Fixpoint partition (stop : ascii -> bool) (s : string) : string * bool * string :=
  match s with
  | EmptyString => (EmptyString, false, EmptyString)
  | String c rest =>
      if stop c then (EmptyString, true, rest)
      else let '(before, found, after) := partition stop rest in
           (String c before, found, after)
  end.

Fixpoint take_until (stop : ascii -> bool) (s : string) : string :=
  match s with
  | EmptyString => EmptyString
  | String c rest => if stop c then EmptyString else String c (take_until stop rest)
  end.

Definition all_chars (p : ascii -> bool) (s : string) : bool :=
  forallb p (list_ascii_of_string s).

Definition split_scheme (s : string) : string * string :=
  let '(before, found, after) := partition (Ascii.eqb ":") s in
  match before with
  | String c _ =>
      if found && is_alpha c && all_chars is_scheme_char before
      then (lower before, after)
      else (EmptyString, s)
  | EmptyString => (EmptyString, s)
  end.

Definition netloc_of (rest : string) : string :=
  match Json.strip_prefix "//" rest with
  | Some after => take_until (fun c => existsb (Ascii.eqb c) ["/"; "?"; "#"]%char) after
  | None => EmptyString
  end.

Definition parse (s : string) : ParseResult :=
  let '(sch, rest) := split_scheme s in
  let '(host, _, port_text) := partition (Ascii.eqb ":") (netloc_of rest) in
  {| scheme := sch;
     hostname := match host with
                 | EmptyString => PNone
                 | _ => PStr (lower host)
                 end;
     port := match port_text with
             | EmptyString => Some PNone
             | _ =>
                 if all_chars Json.is_digit port_text
                 then let p := fst (Json.scan_digits port_text 0) in
                      if Z.leb p 65535 then Some (PInt p) else None
                 else None
             end;
     geturl := match sch with
               | EmptyString => s
               | _ => sch ++ ":" ++ rest
               end |}.

(** One of [[] and []] is in the netloc and the other is not. *)
Definition unmatched_bracket (netloc : string) : bool :=
  let has c := existsb (Ascii.eqb c) (list_ascii_of_string netloc) in
  (has "["%char && negb (has "]"%char)) || (has "]"%char && negb (has "["%char)).

Definition urlparse (s : string) : lib_error + ParseResult :=
  if unmatched_bracket (netloc_of (snd (split_scheme s)))
  then inl (LibError "ValueError")
  else inr (parse s).

End Url.

(** The outside world of the examples: two HTTP documents, one telnet
    service and two files. *)
Module Demo.

Definition http_server (url : string) (verify timeout : pyvalue)
    : lib_error + Response :=
  if String.eqb url "http://example.org/topology.json"
  then inr {| status_code := 200; content_decode := inr "{}" |}
  else if String.eqb url "http://example.org/missing.json"
  then inr {| status_code := 404; content_decode := inr "Not Found" |}
  else if String.eqb url "https://example.org/latin1.json"
  then inr {| status_code := 200;
              content_decode := inl (LibError "UnicodeDecodeError") |}
  else inl (LibError "ConnectionError").

Definition telnet_server (host port timeout : pyvalue) : lib_error + Telnet :=
  match host, port with
  | PStr h, PInt p =>
      if String.eqb h "127.0.0.1" && Z.eqb p 9090
      then inr {| tn_write := fun _ => None;
                  tn_read_all := inr (list_ascii_of_string "{}") |}
      else inl (LibError "ConnectionRefusedError")
  | _, _ => inl (LibError "ConnectionRefusedError")
  end.

Definition files (path : string) : lib_error + string :=
  if String.eqb path "./topology.json" then inr "{}"
  else if String.eqb path "./broken.json" then inr "{not valid"
  else inl (LibError "IOError").

Definition world : World :=
  {| urlparse := Url.urlparse;
     requests_get := http_server;
     telnetlib_Telnet := telnet_server;
     open_read := files;
     json_decode := Json.decode;
     json_dumps := JsonEncode.dumps |}.

(** An instance of the base class with no override. *)
Definition base_parser : Parser :=
  init_attributes BaseParser PNone PNone PNone PNone (PBool true).

(** A subclass with class-level defaults, whose [parse] leaves the instance
    as it is. *)
Definition OlsrParser : ParserClass :=
  {| is_BaseParser := false;
     cls_protocol := PStr "olsr";
     cls_version := PStr "0.8";
     cls_revision := PNone;
     cls_metric := PStr "ETX";
     parse := fun self _ => ret self |}.

(** Two nodes and one link of weight 5. *)
Definition one_link : Graph :=
  {| nodes := [PStr "10.0.0.1"; PStr "10.0.0.2"];
     edges := [(PStr "10.0.0.1", PStr "10.0.0.2", [("weight", PInt 5)])] |}.

Definition with_graph (protocol version metric : pyvalue) : Parser :=
  {| protocol := protocol;
     version := version;
     revision := PNone;
     metric := metric;
     timeout := PNone;
     verify := PBool true;
     original_data := PDict [];
     graph := Some one_link |}.

End Demo.

(** ** Shapes named by the properties *)

(** The fields of the NetJSON document and of a link entry, in order. *)
Definition document_fields : list string :=
  ["type"; "protocol"; "version"; "revision"; "metric"; "nodes"; "links"].

Definition link_fields : list string := ["source"; "target"; "weight"].

(** [entry] is the link entry made from [edge]. *)
Definition link_entry_of
    (edge : pyvalue * pyvalue * list (string * pyvalue)) (entry : pyvalue) : Prop :=
  let '(source, target, attrs) := edge in
  exists weight,
    dict_get "weight" attrs = Some weight
    /\ entry = PDict [("source", source); ("target", target); ("weight", weight)].

Definition has_weight (edge : pyvalue * pyvalue * list (string * pyvalue)) : Prop :=
  dict_get "weight" (snd edge) <> None.

(** An override as the caller gives it: a string, or nothing. *)
Definition override (o : option string) : pyvalue :=
  match o with
  | Some s => PStr s
  | None => PNone
  end.

(** The attribute after construction: the override when it is a non-empty
    string, else the class-level default. *)
Definition chosen (o : option string) (default : pyvalue) : pyvalue :=
  match o with
  | Some s => if String.eqb s EmptyString then default else PStr s
  | None => default
  end.

(** ** Kinds of events and of errors *)

Definition is_file_event (e : event) : bool :=
  match e with
  | EvOpenRead _ => true
  | _ => false
  end.

Definition is_network_event (e : event) : bool :=
  match e with
  | EvRequestsGet _ _ _ | EvTelnetOpen _ _ _ | EvTelnetWrite _
  | EvTelnetReadAll | EvTelnetClose => true
  | _ => false
  end.

Definition is_decode_event (e : event) : bool :=
  match e with
  | EvJsonLoads _ => true
  | _ => false
  end.

(** The metadata check of [json] passes. *)
Definition metadata_ok (self : Parser) : Prop :=
  is_None (protocol self) = false
  /\ is_None (version self) = false
  /\ (is_None (metric self) = false \/ eq_str (protocol self) "static" = true).

(** The first character of [s] is none of [.], [/] and the backslash, and
    [s] has no colon and backslash at the places of a drive prefix. *)
Definition plain_start (s : string) : Prop :=
  match s with
  | EmptyString => True
  | String c _ => c <> "."%char /\ c <> "/"%char /\ c <> "\"%char
  end
  /\ ~ (String.get 1 s = Some ":"%char /\ String.get 2 s = Some "\"%char).

(** ** More sample data *)

Module Samples.

(** Two edges, the second without a [weight] attribute. *)
Definition half_weighted : Graph :=
  {| nodes := [PStr "a"; PStr "b"];
     edges := [(PStr "a", PStr "b", [("weight", PInt 1)]);
               (PStr "b", PStr "a", [("cost", PInt 1)])] |}.

(** An OLSR parser that holds [g]. *)
Definition olsr_with (g : Graph) : Parser :=
  {| protocol := PStr "olsr";
     version := PStr "0.8";
     revision := PNone;
     metric := PStr "ETX";
     timeout := PNone;
     verify := PBool true;
     original_data := PDict [];
     graph := Some g |}.

(** A telnet connection that takes the line terminator and delivers the
    bytes [bs]. *)
Definition telnet_sending (bs : list ascii) : Telnet :=
  {| tn_write := fun _ => None; tn_read_all := inr bs |}.

(** A telnet connection on which [write] fails. *)
Definition telnet_broken : Telnet :=
  {| tn_write := fun _ => Some (LibError "BrokenPipeError");
     tn_read_all := inr [] |}.

(** The world of the examples, with [tn] behind every telnet address. *)
Definition world_with_telnet (tn : Telnet) : World :=
  {| urlparse := Url.urlparse;
     requests_get := Demo.http_server;
     telnetlib_Telnet := fun _ _ _ => inr tn;
     open_read := Demo.files;
     json_decode := Json.decode;
     json_dumps := JsonEncode.dumps |}.

End Samples.

(** An error of a fetch: a [TopologyRetrievalError], or the error of a
    library that was not caught. *)
Definition fetch_failure (e : exn) : Prop :=
  (exists cause, e = TopologyRetrievalError cause)
  \/ (exists lib, e = Propagated lib).

(** What [fetch_data] can give for the string [s]: a text, or [None] for a
    telnet URL, or an error of the fetch. *)
Definition fetched (w : World) (s : string) (out : outcome pyvalue) : Prop :=
  match out with
  | Ok (PStr _) => True
  | Ok PNone =>
      contains "://" s = true
      /\ exists url, urlparse w s = inr url /\ scheme url = "telnet"
  | Ok _ => False
  | Raise e => fetch_failure e
  end.

(** * Properties *)

Open Scope list_scope.

(** ** Equality of values *)

Section PyvalueInduction.

Variable P : pyvalue -> Prop.
Hypothesis HNone : P PNone.
Hypothesis HBool : forall b, P (PBool b).
Hypothesis HInt : forall z, P (PInt z).
Hypothesis HStr : forall s, P (PStr s).
Hypothesis HList : forall l, Forall P l -> P (PList l).
Hypothesis HDict : forall d, Forall (fun kv => P (snd kv)) d -> P (PDict d).
Hypothesis HObj : forall n, P (PObj n).

Lemma pyvalue_nested_ind : forall v, P v.
Proof.
  fix IH 1. intros [ | b | z | s | l | d | n ].
  - exact HNone.
  - apply HBool.
  - apply HInt.
  - apply HStr.
  - apply HList. induction l as [ | x l IHl ]; constructor; [ apply IH | exact IHl ].
  - apply HDict. induction d as [ | [k x] d IHd ]; constructor; [ apply IH | exact IHd ].
  - apply HObj.
Qed.

End PyvalueInduction.

Lemma pyvalue_eqb_refl : forall v, pyvalue_eqb v v = true.
Proof.
  induction v using pyvalue_nested_ind; simpl.
  - reflexivity.
  - apply Bool.eqb_reflx.
  - apply Z.eqb_refl.
  - apply String.eqb_refl.
  - induction H as [ | x l Hx Hl IHl ]; [ reflexivity | ].
    rewrite Hx. exact IHl.
  - induction H as [ | [k x] d Hx Hd IHd ]; [ reflexivity | ].
    simpl in Hx. rewrite String.eqb_refl, Hx. exact IHd.
  - apply Nat.eqb_refl.
Qed.

Lemma same_pair_refl : forall l, same_pair l l = true.
Proof.
  intros [[s t] wt]. unfold same_pair. now rewrite !pyvalue_eqb_refl.
Qed.

Lemma same_weight_refl : forall l, same_weight l l = true.
Proof.
  intros [[s t] [wt | ]]; unfold same_weight; simpl;
    [ apply pyvalue_eqb_refl | reflexivity ].
Qed.

Lemma filter_none {A} (f : A -> bool) (l : list A) :
  (forall x, In x l -> f x = false) -> filter f l = [].
Proof.
  induction l as [ | a l IHl ]; intros Hf; simpl; [ reflexivity | ].
  rewrite (Hf a (or_introl eq_refl)). apply IHl.
  intros x Hx. apply Hf. now right.
Qed.

Lemma nodes_absent_from_self : forall ns, nodes_absent_from ns ns = [].
Proof.
  intros ns. apply filter_none. intros n Hn.
  apply negb_false_iff, existsb_exists. exists n. split; [ exact Hn | ].
  apply pyvalue_eqb_refl.
Qed.

Lemma links_absent_from_self : forall ls, links_absent_from ls ls = [].
Proof.
  intros ls. apply filter_none. intros l Hl.
  apply andb_false_iff. right.
  apply negb_false_iff, existsb_exists. exists l. split; [ exact Hl | ].
  now rewrite same_pair_refl, same_weight_refl.
Qed.

(** ** The monad *)

Ltac unfold_monad :=
  unfold bind, ret, raise, emit, lift, try_except_ValueError; cbv beta.

Ltac run_monad := unfold_monad; simpl.

(** ** [json] *)

Lemma json_links_raises edges :
  forall links e, json_links edges links = Raise e -> e = KeyError "weight".
Proof.
  induction edges as [ | [[source target] attrs] rest IH ]; intros links e; simpl.
  - discriminate.
  - destruct (dict_get "weight" attrs) as [weight | ].
    + apply IH.
    + congruence.
Qed.

(** C1: serialization fails with [NetJsonError] (the spec's
    SchemaValidationError) when [metric] is [None] and [protocol] is not
    ["static"], and also when [protocol] or [version] is [None]; with
    [protocol] equal to ["static"] and a version, it does not fail with that
    error, whatever [metric] is. *)
Theorem json_metadata_check (w : World) (self : Parser) (g : Graph)
    (dict : bool) (args : list (string * pyvalue)) (tr : list event) :
  graph self = Some g ->
  (is_None (metric self) = true -> eq_str (protocol self) "static" = false ->
   exists msg, json w self dict args tr = (Raise (NetJsonError msg), tr))
  /\ (is_None (protocol self) = true \/ is_None (version self) = true ->
      exists msg, json w self dict args tr = (Raise (NetJsonError msg), tr))
  /\ (eq_str (protocol self) "static" = true -> is_None (version self) = false ->
      forall msg, fst (json w self dict args tr) <> Raise (NetJsonError msg)).
Proof.
  intros Hg. unfold json. rewrite Hg. repeat split.
  - intros Hm Hp. rewrite Hm, Hp.
    destruct (is_None (protocol self)); [ eexists; reflexivity | ].
    destruct (is_None (version self)); eexists; reflexivity.
  - intros [Hp | Hv].
    + rewrite Hp. eexists; reflexivity.
    + rewrite Hv. destruct (is_None (protocol self)); eexists; reflexivity.
  - intros Hp Hv msg. rewrite Hp, Hv.
    assert (Hn : is_None (protocol self) = false)
      by (destruct (protocol self); simpl in *; congruence).
    rewrite Hn, andb_false_r. run_monad.
    destruct (json_links (edges g) []) as [links | e] eqn:Hl; simpl.
    + destruct dict; simpl; [ discriminate | ].
      destruct (json_dumps w _ args) as [e | text]; simpl; discriminate.
    + apply json_links_raises in Hl. subst e. discriminate.
Qed.

Lemma json_metadata_check_witness :
  (exists msg, json Demo.world (Demo.with_graph (PStr "olsr") (PStr "0.8") PNone)
                 false [] [] = (Raise (NetJsonError msg), []))
  /\ (exists msg, json Demo.world (Demo.with_graph PNone (PStr "0.8") (PStr "ETX"))
                    false [] [] = (Raise (NetJsonError msg), []))
  /\ (forall msg, fst (json Demo.world
                         (Demo.with_graph (PStr "static") (PStr "1") PNone)
                         false [] []) <> Raise (NetJsonError msg)).
Proof.
  split; [ | split ].
  - apply (proj1 (json_metadata_check Demo.world
             (Demo.with_graph (PStr "olsr") (PStr "0.8") PNone) Demo.one_link
             false [] [] eq_refl)); reflexivity.
  - apply (proj1 (proj2 (json_metadata_check Demo.world
             (Demo.with_graph PNone (PStr "0.8") (PStr "ETX")) Demo.one_link
             false [] [] eq_refl))). left. reflexivity.
  - apply (proj2 (proj2 (json_metadata_check Demo.world
             (Demo.with_graph (PStr "static") (PStr "1") PNone) Demo.one_link
             false [] [] eq_refl))); reflexivity.
Defined.

(** ** [__sub__] *)

(** C2: the diff of a parsed graph with itself has no added and no removed
    node or link. *)
Theorem sub_self_empty (A : Parser) (g : Graph) :
  graph A = Some g ->
  exists d, __sub__ A A = Some d
            /\ added_nodes d = [] /\ added_links d = []
            /\ removed_nodes d = [] /\ removed_links d = [].
Proof.
  intros Hg. unfold __sub__, diff. rewrite Hg.
  eexists. split; [ reflexivity | ]. simpl.
  rewrite nodes_absent_from_self, links_absent_from_self. auto.
Qed.

Lemma sub_self_empty_witness :
  graph (Demo.with_graph (PStr "olsr") (PStr "0.8") (PStr "ETX")) = Some Demo.one_link
  /\ exists d, __sub__ (Demo.with_graph (PStr "olsr") (PStr "0.8") (PStr "ETX"))
                       (Demo.with_graph (PStr "olsr") (PStr "0.8") (PStr "ETX")) = Some d
               /\ added_nodes d = [] /\ added_links d = []
               /\ removed_nodes d = [] /\ removed_links d = [].
Proof.
  split; [ reflexivity | ].
  apply (sub_self_empty _ Demo.one_link). reflexivity.
Defined.

(** ** [to_python] *)

Section Resolver.

Context (w : World).

Lemma to_python_string (self : Parser) (s : string) (tr : list event) :
  to_python w self (PStr s) tr
  = (data <- fetch_data w self s ;; decode_data w data) tr.
Proof. reflexivity. Qed.

Lemma decode_data_text (t : string) (tr : list event) :
  decode_data w (PStr t) tr
  = (match json_decode w t with
     | Some v => Ok v
     | None => Raise (ParserJsonError "Could not decode JSON data")
     end, tr ++ [EvJsonLoads (PStr t)]).
Proof.
  unfold decode_data, json_loads. run_monad.
  destruct (json_decode w t); reflexivity.
Qed.

Lemma decode_data_None (tr : list event) :
  decode_data w PNone tr = (Raise TypeError, tr ++ [EvJsonLoads PNone]).
Proof. reflexivity. Qed.

(** A string with ["://"] whose scheme is not one of the three is not
    fetched. *)
Lemma fetch_data_other_scheme (self : Parser) (s : string)
    (url : ParseResult) (tr : list event) :
  contains "://" s = true ->
  urlparse w s = inr url ->
  existsb (String.eqb (scheme url)) ["http"; "https"; "telnet"] = false ->
  fetch_data w self s tr = (Ok (PStr s), tr).
Proof.
  intros Hc Hu Hs. unfold fetch_data. rewrite Hc, Hu.
  simpl in Hs. apply orb_false_iff in Hs as [H1 Hs].
  apply orb_false_iff in Hs as [H2 Hs]. apply orb_false_iff in Hs as [H3 _].
  simpl. rewrite H1, H2, H3. reflexivity.
Qed.

(** A string with neither ["://"] nor a path prefix is not fetched. *)
Lemma fetch_data_inline (self : Parser) (s : string) (tr : list event) :
  contains "://" s = false -> looks_like_path s = false ->
  fetch_data w self s tr = (Ok (PStr s), tr).
Proof.
  intros Hc Hp. unfold fetch_data. now rewrite Hc, Hp.
Qed.

(** [_get_telnet] has no other value than [None]. *)
Lemma get_telnet_value (self : Parser) (url : ParseResult)
    (tr tr' : list event) (v : pyvalue) :
  _get_telnet w self url tr = (Ok v, tr') -> v = PNone.
Proof.
  unfold _get_telnet. intros H.
  destruct (port url) as [p | ]; [ | discriminate H ].
  revert H. unfold_monad.
  destruct (telnetlib_Telnet w (hostname url) p (timeout self)) as [e | tn];
    [ discriminate | ].
  destruct (tn_write tn (encode_ascii CRLF)); [ discriminate | ].
  destruct (tn_read_all tn) as [e | bs]; [ discriminate | ].
  destruct (decode_ascii bs); [ discriminate | ].
  congruence.
Qed.

(** C3: on a telnet URL whose connection opens, takes the line terminator
    and delivers ASCII data, [_get_telnet] does connect, write, read and
    close, but its value is [None], not the text read: [to_python] ends in a
    [TypeError] raised by the decoder, whatever was read. *)
Theorem to_python_telnet_loses_data (self : Parser) (s : string)
    (url : ParseResult) (url_port : pyvalue) (tn : Telnet) (bs : list ascii)
    (text : string) (tr : list event) :
  contains "://" s = true ->
  urlparse w s = inr url ->
  scheme url = "telnet" ->
  port url = Some url_port ->
  telnetlib_Telnet w (hostname url) url_port (timeout self) = inr tn ->
  tn_write tn (encode_ascii CRLF) = None ->
  tn_read_all tn = inr bs ->
  decode_ascii bs = inr text ->
  to_python w self (PStr s) tr
  = (Raise TypeError,
     tr ++ [EvTelnetOpen (hostname url) url_port (timeout self);
            EvTelnetWrite (encode_ascii CRLF);
            EvTelnetReadAll;
            EvTelnetClose;
            EvJsonLoads PNone]).
Proof.
  intros Hc Hu Hs Hp Ht Hw Hr Hd.
  rewrite to_python_string. unfold fetch_data, _get_telnet.
  rewrite Hc, Hu, Hs, Hp. unfold_monad. cbv zeta. unfold_monad.
  rewrite Ht, Hw, Hr, Hd.
  unfold decode_data, json_loads. run_monad.
  repeat rewrite <- app_assoc. reflexivity.
Qed.

(** C4: when the data that reaches the decoder is a text that is not a JSON
    document, [to_python] raises [ParserJsonError] (the spec's
    ParserFormatError), which is not a [TopologyRetrievalError]; a string
    with neither ["://"] nor a path prefix reaches the decoder as it is. *)
Theorem to_python_malformed_text (self : Parser) (s t : string)
    (tr tr' : list event) :
  fetch_data w self s tr = (Ok (PStr t), tr') ->
  json_decode w t = None ->
  to_python w self (PStr s) tr
  = (Raise (ParserJsonError "Could not decode JSON data"),
     tr' ++ [EvJsonLoads (PStr t)])
  /\ (forall cause,
        ParserJsonError "Could not decode JSON data" <> TopologyRetrievalError cause)
  /\ (contains "://" s = false -> looks_like_path s = false -> t = s /\ tr' = tr).
Proof.
  intros Hf Hd. split; [ | split ].
  - rewrite to_python_string. unfold bind. rewrite Hf.
    rewrite decode_data_text, Hd. reflexivity.
  - discriminate.
  - intros Hc Hp. rewrite (fetch_data_inline self s tr Hc Hp) in Hf.
    split; congruence.
Qed.

(** An [http] or [https] URL goes to [_get_http], and what it returns goes
    to the decoder. *)
Lemma to_python_http (self : Parser) (s : string) (url : ParseResult)
    (tr : list event) :
  contains "://" s = true ->
  urlparse w s = inr url ->
  existsb (String.eqb (scheme url)) ["http"; "https"] = true ->
  to_python w self (PStr s) tr
  = (data <- _get_http w self url ;; decode_data w data) tr.
Proof.
  intros Hc Hu Hs. rewrite to_python_string. unfold fetch_data.
  rewrite Hc, Hu. cbv zeta. rewrite Hs.
  assert (Ht : String.eqb (scheme url) "telnet" = false).
  { simpl in Hs. rewrite orb_false_r in Hs.
    apply orb_true_iff in Hs as [H | H]; apply String.eqb_eq in H; now rewrite H. }
  rewrite Ht. unfold bind, ret.
  destruct (_get_http w self url tr) as [[data | e] tr1]; reflexivity.
Qed.

(** [_get_http] alone: one GET on the URL with the [verify] flag and the
    [timeout] of the parser, a [TopologyRetrievalError] when the request
    fails and when the status is not 200, the decoded body of a 200
    response. *)
Lemma get_http_outcomes (self : Parser) (url : ParseResult) (tr : list event) :
  let request := EvRequestsGet (geturl url) (verify self) (timeout self) in
  (forall e,
     requests_get w (geturl url) (verify self) (timeout self) = inl e ->
     _get_http w self url tr
     = (Raise (TopologyRetrievalError (CausedBy e)), tr ++ [request]))
  /\ (forall response,
        requests_get w (geturl url) (verify self) (timeout self) = inr response ->
        status_code response <> 200%Z ->
        _get_http w self url tr
        = (Raise (TopologyRetrievalError (BadStatus (status_code response))),
           tr ++ [request]))
  /\ (forall response body,
        requests_get w (geturl url) (verify self) (timeout self) = inr response ->
        status_code response = 200%Z ->
        content_decode response = inr body ->
        _get_http w self url tr = (Ok (PStr body), tr ++ [request])).
Proof.
  unfold _get_http. run_monad. repeat split.
  - intros e He. now rewrite He.
  - intros response Hr Hs. rewrite Hr.
    apply Z.eqb_neq in Hs. now rewrite Hs.
  - intros response body Hr Hs Hb. rewrite Hr, Hs, Hb. reflexivity.
Qed.

(** C5, as the code has it: for a string with ["://"] that [urlparse]
    reads with the scheme [http] or [https], [to_python] issues one GET on
    the URL, with the [verify] flag and the [timeout] of the parser, and no
    other fetch; it raises [TopologyRetrievalError] when the request fails
    and when the status is not 200; on a 200 response whose body decodes to
    text, [_get_http] returns that text and [to_python] gives its JSON
    decoding; on a 200 response whose body does not decode, the error of the
    decoding leaves [to_python]. *)
Theorem to_python_http_get (self : Parser) (s : string) (url : ParseResult)
    (tr : list event) :
  contains "://" s = true ->
  urlparse w s = inr url ->
  existsb (String.eqb (scheme url)) ["http"; "https"] = true ->
  let request := EvRequestsGet (geturl url) (verify self) (timeout self) in
  (exists out evs,
     to_python w self (PStr s) tr = (out, tr ++ request :: evs)
     /\ existsb is_network_event evs = false
     /\ existsb is_file_event evs = false)
  /\ (forall e,
        requests_get w (geturl url) (verify self) (timeout self) = inl e ->
        to_python w self (PStr s) tr
        = (Raise (TopologyRetrievalError (CausedBy e)), tr ++ [request]))
  /\ (forall response,
        requests_get w (geturl url) (verify self) (timeout self) = inr response ->
        status_code response <> 200%Z ->
        to_python w self (PStr s) tr
        = (Raise (TopologyRetrievalError (BadStatus (status_code response))),
           tr ++ [request]))
  /\ (forall response body,
        requests_get w (geturl url) (verify self) (timeout self) = inr response ->
        status_code response = 200%Z ->
        content_decode response = inr body ->
        _get_http w self url tr = (Ok (PStr body), tr ++ [request])
        /\ to_python w self (PStr s) tr
           = (match json_decode w body with
              | Some v => Ok v
              | None => Raise (ParserJsonError "Could not decode JSON data")
              end, tr ++ [request; EvJsonLoads (PStr body)]))
  /\ (forall response e,
        requests_get w (geturl url) (verify self) (timeout self) = inr response ->
        status_code response = 200%Z ->
        content_decode response = inl e ->
        to_python w self (PStr s) tr = (Raise (Propagated e), tr ++ [request])).
Proof.
  intros Hc Hu Hs. cbv zeta.
  rewrite (to_python_http self s url tr Hc Hu Hs).
  unfold _get_http. unfold_monad.
  split; [ | split; [ | split; [ | split ] ] ].
  - destruct (requests_get w (geturl url) (verify self) (timeout self))
      as [e | response].
    { eexists _, []. split; [ reflexivity | now split ]. }
    destruct (negb (Z.eqb (status_code response) 200)).
    { eexists _, []. split; [ reflexivity | now split ]. }
    destruct (content_decode response) as [e | body].
    { eexists _, []. split; [ reflexivity | now split ]. }
    rewrite decode_data_text, <- app_assoc.
    eexists _, [EvJsonLoads (PStr body)]. split; [ reflexivity | now split ].
  - intros e He. now rewrite He.
  - intros response Hr Hne. rewrite Hr.
    apply Z.eqb_neq in Hne. now rewrite Hne.
  - intros response body Hr H200 Hb. rewrite Hr, H200, Hb. simpl.
    split; [ reflexivity | ].
    rewrite decode_data_text, <- app_assoc. reflexivity.
  - intros response e Hr H200 He. rewrite Hr, H200, He. reflexivity.
Qed.

(** C6: a reference that is neither a dict nor a string raises
    [ParserError], and the trace is left as it was: nothing is fetched and
    nothing is decoded. *)
Theorem to_python_other_type (self : Parser) (data : pyvalue) (tr : list event) :
  isinstance_dict data = false ->
  isinstance_string data = false ->
  to_python w self data tr
  = (Raise (ParserError "Could not find valid data to parse"), tr).
Proof.
  intros Hd Hs. destruct data; simpl in *; try discriminate; reflexivity.
Qed.

(** C10: a string with ["://"] whose scheme is none of [http], [https] and
    [telnet] is not fetched: the one call that leaves the module is the
    decoding of the string itself, and the result is the decoded value, or
    [ParserJsonError] when the string is not a JSON document. *)
Theorem to_python_unknown_scheme (self : Parser) (s : string)
    (url : ParseResult) (tr : list event) :
  contains "://" s = true ->
  urlparse w s = inr url ->
  existsb (String.eqb (scheme url)) ["http"; "https"; "telnet"] = false ->
  to_python w self (PStr s) tr
  = (match json_decode w s with
     | Some v => Ok v
     | None => Raise (ParserJsonError "Could not decode JSON data")
     end, tr ++ [EvJsonLoads (PStr s)]).
Proof.
  intros Hc Hu Hs. rewrite to_python_string. unfold bind.
  rewrite (fetch_data_other_scheme self s url tr Hc Hu Hs).
  apply decode_data_text.
Qed.

End Resolver.

(** ** The resolver in the world of the examples *)

Lemma to_python_telnet_loses_data_witness :
  to_python Demo.world Demo.base_parser (PStr "telnet://127.0.0.1:9090") []
  = (Raise TypeError,
     [EvTelnetOpen (PStr "127.0.0.1") (PInt 9090) PNone;
      EvTelnetWrite (encode_ascii CRLF);
      EvTelnetReadAll;
      EvTelnetClose;
      EvJsonLoads PNone]).
Proof.
  apply (to_python_telnet_loses_data Demo.world Demo.base_parser
           "telnet://127.0.0.1:9090" (Url.parse "telnet://127.0.0.1:9090")
           (PInt 9090)
           {| tn_write := fun _ => None;
              tn_read_all := inr (list_ascii_of_string "{}") |}
           (list_ascii_of_string "{}") "{}" []); reflexivity.
Defined.

Lemma to_python_malformed_text_witness :
  to_python Demo.world Demo.base_parser (PStr "{not valid") []
  = (Raise (ParserJsonError "Could not decode JSON data"),
     [EvJsonLoads (PStr "{not valid")]).
Proof.
  apply (to_python_malformed_text Demo.world Demo.base_parser
           "{not valid" "{not valid" [] []); reflexivity.
Defined.

Lemma to_python_http_get_witness :
  to_python Demo.world Demo.base_parser (PStr "http://example.org/missing.json") []
  = (Raise (TopologyRetrievalError (BadStatus 404)),
     [EvRequestsGet "http://example.org/missing.json" (PBool true) PNone])
  /\ to_python Demo.world Demo.base_parser (PStr "http://example.org/topology.json") []
     = (Ok (PDict []),
        [EvRequestsGet "http://example.org/topology.json" (PBool true) PNone;
         EvJsonLoads (PStr "{}")])
  /\ to_python Demo.world Demo.base_parser (PStr "https://example.org/down.json") []
     = (Raise (TopologyRetrievalError (CausedBy (LibError "ConnectionError"))),
        [EvRequestsGet "https://example.org/down.json" (PBool true) PNone]).
Proof.
  split; [ | split ].
  - apply (proj1 (proj2 (proj2 (to_python_http_get Demo.world Demo.base_parser
             "http://example.org/missing.json"
             (Url.parse "http://example.org/missing.json") []
             eq_refl eq_refl eq_refl)))
             {| status_code := 404; content_decode := inr "Not Found" |});
      [ reflexivity | discriminate ].
  - apply (proj1 (proj2 (proj2 (proj2 (to_python_http_get Demo.world
             Demo.base_parser "http://example.org/topology.json"
             (Url.parse "http://example.org/topology.json") []
             eq_refl eq_refl eq_refl))))
             {| status_code := 200; content_decode := inr "{}" |} "{}");
      reflexivity.
  - apply (proj1 (proj2 (to_python_http_get Demo.world Demo.base_parser
             "https://example.org/down.json"
             (Url.parse "https://example.org/down.json") []
             eq_refl eq_refl eq_refl))).
    reflexivity.
Defined.

(** C5, as the claim has it, fails on a 200 response whose body is not
    text in the default encoding: nothing is returned, and the error is the
    [UnicodeDecodeError] of the decoding, not a [TopologyRetrievalError]. *)
Lemma to_python_http_undecodable_body :
  (exists response,
     requests_get Demo.world "https://example.org/latin1.json" (PBool true) PNone
     = inr response
     /\ status_code response = 200%Z)
  /\ _get_http Demo.world Demo.base_parser
       (Url.parse "https://example.org/latin1.json") []
     = (Raise (Propagated (LibError "UnicodeDecodeError")),
        [EvRequestsGet "https://example.org/latin1.json" (PBool true) PNone])
  /\ to_python Demo.world Demo.base_parser
       (PStr "https://example.org/latin1.json") []
     = (Raise (Propagated (LibError "UnicodeDecodeError")),
        [EvRequestsGet "https://example.org/latin1.json" (PBool true) PNone]).
Proof.
  split; [ eexists; split; reflexivity | split; reflexivity ].
Qed.

Lemma to_python_other_type_witness :
  to_python Demo.world Demo.base_parser (PInt 3) []
  = (Raise (ParserError "Could not find valid data to parse"), [])
  /\ to_python Demo.world Demo.base_parser (PList [PInt 1; PInt 2]) []
     = (Raise (ParserError "Could not find valid data to parse"), []).
Proof.
  split; apply to_python_other_type; reflexivity.
Defined.

Lemma to_python_unknown_scheme_witness :
  to_python Demo.world Demo.base_parser (PStr "ftp://host/x") []
  = (Raise (ParserJsonError "Could not decode JSON data"),
     [EvJsonLoads (PStr "ftp://host/x")]).
Proof.
  apply (to_python_unknown_scheme Demo.world Demo.base_parser "ftp://host/x"
           (Url.parse "ftp://host/x") []);
    reflexivity.
Defined.

(** A JSON document with ["://"] in it is decoded, not fetched. *)
Example to_python_json_with_url :
  let text := ("[" ++ JsonEncode.encode_str "x://y" ++ "]")%string in
  to_python Demo.world Demo.base_parser (PStr text) []
  = (Ok (PList [PStr "x://y"]), [EvJsonLoads (PStr text)]).
Proof. reflexivity. Qed.

(** The full run on the HTTP documents of the examples. *)
Example to_python_http_examples :
  to_python Demo.world Demo.base_parser (PStr "http://example.org/topology.json") []
  = (Ok (PDict []),
     [EvRequestsGet "http://example.org/topology.json" (PBool true) PNone;
      EvJsonLoads (PStr "{}")])
  /\ to_python Demo.world Demo.base_parser (PStr "http://example.org/missing.json") []
     = (Raise (TopologyRetrievalError (BadStatus 404)),
        [EvRequestsGet "http://example.org/missing.json" (PBool true) PNone]).
Proof. split; reflexivity. Qed.

(** A file of malformed text and a file that is not there. *)
Example to_python_file_examples :
  to_python Demo.world Demo.base_parser (PStr "./broken.json") []
  = (Raise (ParserJsonError "Could not decode JSON data"),
     [EvOpenRead "./broken.json"; EvJsonLoads (PStr "{not valid")])
  /\ to_python Demo.world Demo.base_parser (PStr "./absent.json") []
     = (Raise (TopologyRetrievalError (CausedBy (LibError "IOError"))),
        [EvOpenRead "./absent.json"]).
Proof. split; reflexivity. Qed.

(** ** The NetJSON document *)

Lemma json_links_entries edges :
  forall links result,
    json_links edges links = Ok result ->
    exists entries, result = links ++ entries /\ Forall2 link_entry_of edges entries.
Proof.
  induction edges as [ | [[source target] attrs] rest IH ]; intros links result; simpl.
  - intros H. injection H as <-. exists []. split; [ now rewrite app_nil_r | constructor ].
  - destruct (dict_get "weight" attrs) as [weight | ] eqn:Hw; [ | discriminate ].
    intros H. apply IH in H as (entries & -> & Hall).
    eexists (_ :: entries). split.
    + rewrite <- app_assoc. reflexivity.
    + constructor; [ | exact Hall ]. simpl. exists weight. now split.
Qed.

Lemma json_links_total edges :
  Forall has_weight edges ->
  forall links, exists result, json_links edges links = Ok result.
Proof.
  induction 1 as [ | [[source target] attrs] rest Hw _ IH ]; intros links; simpl.
  - now exists links.
  - unfold has_weight in Hw. simpl in Hw.
    destruct (dict_get "weight" attrs) as [weight | ]; [ apply IH | congruence ].
Qed.

Lemma link_entry_fields edge entry :
  link_entry_of edge entry ->
  exists items, entry = PDict items /\ dict_keys items = link_fields.
Proof.
  destruct edge as [[source target] attrs]. intros (weight & _ & ->).
  eexists. split; reflexivity.
Qed.

(** C7: when the metadata check passes, the document that [json] returns
    has the fields [type] (with value ["NetworkGraph"]), [protocol],
    [version], [revision], [metric], [nodes], [links] in this order, and its
    links are, edge by edge, the entries with the fields [source], [target],
    [weight] in this order; the document is returned as soon as every edge
    has a weight. *)
Theorem json_field_order (w : World) (self : Parser) (g : Graph)
    (args : list (string * pyvalue)) (tr : list event) :
  graph self = Some g ->
  is_None (protocol self) = false ->
  is_None (version self) = false ->
  is_None (metric self) && negb (eq_str (protocol self) "static") = false ->
  (forall doc tr',
     json w self true args tr = (Ok doc, tr') ->
     exists items links,
       doc = PDict items
       /\ dict_keys items = document_fields
       /\ dict_get "type" items = Some (PStr "NetworkGraph")
       /\ dict_get "links" items = Some (PList links)
       /\ Forall2 link_entry_of (edges g) links
       /\ Forall (fun entry => exists fields, entry = PDict fields
                                /\ dict_keys fields = link_fields) links)
  /\ (Forall has_weight (edges g) ->
      exists doc, json w self true args tr = (Ok doc, tr)).
Proof.
  intros Hg Hp Hv Hm. unfold json. rewrite Hg, Hp, Hv, Hm. unfold_monad. split.
  - intros doc tr'.
    destruct (json_links (edges g) []) as [links | e] eqn:Hl; [ | discriminate ].
    intros H. injection H as <- <-.
    apply json_links_entries in Hl as (entries & -> & Hall). simpl.
    do 2 eexists. split; [ reflexivity | ].
    repeat split; [ exact Hall | ].
    clear - Hall. induction Hall as [ | edge entry es ens He _ IH ]; constructor.
    + exact (link_entry_fields edge entry He).
    + exact IH.
  - intros Hw. destruct (json_links_total (edges g) Hw []) as [links Hl].
    rewrite Hl. eexists. reflexivity.
Qed.

Lemma json_field_order_witness :
  exists links,
    json Demo.world (Demo.with_graph (PStr "olsr") (PStr "0.8") (PStr "ETX")) true [] []
    = (Ok (PDict [("type", PStr "NetworkGraph");
                  ("protocol", PStr "olsr");
                  ("version", PStr "0.8");
                  ("revision", PNone);
                  ("metric", PStr "ETX");
                  ("nodes", PList [PDict [("id", PStr "10.0.0.1")];
                                   PDict [("id", PStr "10.0.0.2")]]);
                  ("links", PList links)]), [])
    /\ Forall2 link_entry_of (edges Demo.one_link) links.
Proof.
  destruct (json_field_order Demo.world
              (Demo.with_graph (PStr "olsr") (PStr "0.8") (PStr "ETX"))
              Demo.one_link [] [] eq_refl eq_refl eq_refl eq_refl) as [Hshape _].
  destruct (Hshape _ [] eq_refl) as (items & links & Hdoc & _ & _ & Hlinks & Hall & _).
  exists links. injection Hdoc as <-. simpl in Hlinks. injection Hlinks as <-.
  split; [ reflexivity | exact Hall ].
Defined.

(** C8: the text form of [json] is the JSON encoding, with the keyword
    arguments of the call, of the document that [json] returns with
    [dict=True], and it fails as that call fails. *)
Theorem json_text_of_document (w : World) (self : Parser)
    (args : list (string * pyvalue)) (tr : list event) :
  json w self false args tr
  = (document <- json w self true args ;; text_form_of w args document) tr.
Proof.
  unfold json, text_form_of.
  destruct (graph self) as [g | ]; [ | reflexivity ].
  destruct (is_None (protocol self)); [ reflexivity | ].
  destruct (is_None (version self)); [ reflexivity | ].
  destruct (is_None (metric self) && negb (eq_str (protocol self) "static"));
    [ reflexivity | ].
  unfold_monad. destruct (json_links (edges g) []); reflexivity.
Qed.

(** The text of the one-link graph, with the encoder of the examples. *)
Example json_text_example :
  json Demo.world (Demo.with_graph (PStr "static") (PStr "1") PNone) false [] []
  = (Ok (PStr (JsonEncode.join ", "
                 ["{" ++ JsonEncode.encode_str "type" ++ ": "
                      ++ JsonEncode.encode_str "NetworkGraph";
                  JsonEncode.encode_str "protocol" ++ ": "
                      ++ JsonEncode.encode_str "static";
                  JsonEncode.encode_str "version" ++ ": " ++ JsonEncode.encode_str "1";
                  JsonEncode.encode_str "revision" ++ ": null";
                  JsonEncode.encode_str "metric" ++ ": null";
                  JsonEncode.encode_str "nodes" ++ ": [{"
                      ++ JsonEncode.encode_str "id" ++ ": "
                      ++ JsonEncode.encode_str "10.0.0.1" ++ "}";
                  "{" ++ JsonEncode.encode_str "id" ++ ": "
                      ++ JsonEncode.encode_str "10.0.0.2" ++ "}]";
                  JsonEncode.encode_str "links" ++ ": [{"
                      ++ JsonEncode.encode_str "source" ++ ": "
                      ++ JsonEncode.encode_str "10.0.0.1";
                  JsonEncode.encode_str "target" ++ ": "
                      ++ JsonEncode.encode_str "10.0.0.2";
                  JsonEncode.encode_str "weight" ++ ": 5}]}"]%string)), []).
Proof. reflexivity. Qed.

(** ** [__init__] *)

Lemma truthy_override (o : option string) (default : pyvalue) :
  (if truthy (override o) then override o else default) = chosen o default.
Proof.
  destruct o as [s | ]; simpl; [ | reflexivity ].
  destruct (String.eqb s EmptyString); reflexivity.
Qed.

(** The attributes set by lines 40 to 47. *)
Lemma init_attributes_chosen (cls : ParserClass) (v r m : option string)
    (t vf : pyvalue) :
  let self := init_attributes cls (override v) (override r) (override m) t vf in
  version self = chosen v (cls_version cls)
  /\ revision self = chosen r (cls_revision cls)
  /\ metric self = chosen m (cls_metric cls).
Proof.
  simpl. now rewrite !truthy_override.
Qed.

(** C9, as the code has it: after a construction that succeeds, with a
    [parse] that leaves the three attributes alone, each of [version],
    [revision] and [metric] is the override when the override is a non-empty
    string, and the class-level default when the override is omitted or is
    the empty string. *)
Theorem init_overrides (w : World) (cls : ParserClass) (data : pyvalue)
    (v r m : option string) (t vf : pyvalue) (tr tr' : list event)
    (self : Parser) :
  __init__ w cls data (override v) (override r) (override m) t vf tr
  = (Ok self, tr') ->
  (forall p d tr1 p' tr2,
     is_BaseParser cls = false ->
     parse cls p d tr1 = (Ok p', tr2) ->
     version p' = version p /\ revision p' = revision p /\ metric p' = metric p) ->
  version self = chosen v (cls_version cls)
  /\ revision self = chosen r (cls_revision cls)
  /\ metric self = chosen m (cls_metric cls).
Proof.
  unfold __init__. unfold_monad. cbv zeta. intros Hinit Hparse.
  destruct (to_python w _ data tr) as [[data' | e] tr1]; [ | discriminate ].
  destruct (is_BaseParser cls) eqn:Hbase; simpl in Hinit.
  - injection Hinit as <- _. simpl. now rewrite !truthy_override.
  - destruct (Hparse _ _ _ _ _ eq_refl Hinit) as (-> & -> & ->).
    simpl. now rewrite !truthy_override.
Qed.

Lemma init_overrides_witness :
  exists self,
    __init__ Demo.world Demo.OlsrParser (PDict [])
      (override (Some "0.9")) (override None) (override (Some EmptyString))
      PNone (PBool true) [] = (Ok self, [])
    /\ version self = PStr "0.9"
    /\ revision self = PNone
    /\ metric self = PStr "ETX".
Proof.
  eexists. split; [ reflexivity | ].
  apply (init_overrides Demo.world Demo.OlsrParser (PDict [])
           (Some "0.9") None (Some EmptyString) PNone (PBool true) [] []).
  - reflexivity.
  - intros p d tr1 p' tr2 _ H. injection H as <- _. auto.
Defined.

(** C9, as the claim has it, fails on the empty string: the override [''] for
    [version] and [metric] leaves the defaults ['0.8'] and ['ETX'] of the
    class in place. *)
Lemma init_empty_override_kept_default :
  exists self,
    __init__ Demo.world Demo.OlsrParser (PDict [])
      (PStr EmptyString) PNone (PStr EmptyString) PNone (PBool true) []
    = (Ok self, [])
    /\ version self = PStr "0.8" /\ version self <> PStr EmptyString
    /\ metric self = PStr "ETX" /\ metric self <> PStr EmptyString.
Proof.
  eexists. split; [ reflexivity | ]. simpl.
  repeat split; discriminate.
Qed.

(** * Further properties of the module *)

(** ** [json]: errors, success and content *)

Lemma json_links_outcome edges :
  forall links,
    (Forall has_weight edges /\ exists result, json_links edges links = Ok result)
    \/ (Exists (fun edge => dict_get "weight" (snd edge) = None) edges
        /\ json_links edges links = Raise (KeyError "weight")).
Proof.
  induction edges as [ | [[source target] attrs] rest IH ]; intros links; simpl.
  - left. split; [ constructor | now exists links ].
  - destruct (dict_get "weight" attrs) as [weight | ] eqn:Hw.
    + destruct (IH (links ++ [PDict [("source", source); ("target", target);
                                    ("weight", weight)]]))
        as [[Hall Hok] | [Hex Hraise]].
      * left. split; [ | exact Hok ].
        constructor; [ unfold has_weight; simpl; congruence | exact Hall ].
      * right. split; [ now apply Exists_cons_tl | exact Hraise ].
    + right. split; [ | reflexivity ]. now apply Exists_cons_hd.
Qed.

Lemma has_weight_not_missing edges :
  Forall has_weight edges ->
  ~ Exists (fun edge => dict_get "weight" (snd edge) = None) edges.
Proof.
  intros Hall Hex. apply Exists_exists in Hex as (edge & Hin & Hnone).
  rewrite Forall_forall in Hall. exact (Hall edge Hin Hnone).
Qed.

Lemma metadata_ok_guards (self : Parser) :
  metadata_ok self ->
  is_None (protocol self) = false
  /\ is_None (version self) = false
  /\ is_None (metric self) && negb (eq_str (protocol self) "static") = false.
Proof.
  intros (Hp & Hv & [Hm | Hs]); repeat split; try assumption.
  - now rewrite Hm.
  - rewrite Hs. apply andb_false_r.
Qed.

(** X1: [json] reports the first thing that is missing, in the order of
    its tests: no graph is a [NotImplementedError] whatever the metadata
    is; then a [None] protocol, then a [None] version, then a [None] metric
    of a protocol other than ["static"], each a [NetJsonError] with the
    name of that field. *)
Theorem json_first_missing (w : World) (self : Parser) (dict : bool)
    (args : list (string * pyvalue)) (tr : list event) :
  (graph self = None ->
   json w self dict args tr = (Raise NotImplementedError, tr))
  /\ (forall g, graph self = Some g ->
      is_None (protocol self) = true ->
      json w self dict args tr
      = (Raise (NetJsonError "protocol cannot be None"), tr))
  /\ (forall g, graph self = Some g ->
      is_None (protocol self) = false ->
      is_None (version self) = true ->
      json w self dict args tr
      = (Raise (NetJsonError "version cannot be None"), tr))
  /\ (forall g, graph self = Some g ->
      is_None (protocol self) = false ->
      is_None (version self) = false ->
      is_None (metric self) = true ->
      eq_str (protocol self) "static" = false ->
      json w self dict args tr
      = (Raise (NetJsonError "metric cannot be None"), tr)).
Proof.
  unfold json. repeat split.
  - intros Hg. now rewrite Hg.
  - intros g Hg Hp. now rewrite Hg, Hp.
  - intros g Hg Hp Hv. now rewrite Hg, Hp, Hv.
  - intros g Hg Hp Hv Hm Hs. now rewrite Hg, Hp, Hv, Hm, Hs.
Qed.

(** X2: [json] makes no call that leaves the module but [json.dumps]: the
    trace of events is the same after it as before, on every path. *)
Theorem json_keeps_trace (w : World) (self : Parser) (dict : bool)
    (args : list (string * pyvalue)) (tr : list event) :
  snd (json w self dict args tr) = tr.
Proof.
  unfold json.
  destruct (graph self) as [g | ]; [ | reflexivity ].
  destruct (is_None (protocol self)); [ reflexivity | ].
  destruct (is_None (version self)); [ reflexivity | ].
  destruct (is_None (metric self) && negb (eq_str (protocol self) "static"));
    [ reflexivity | ].
  unfold_monad. destruct (json_links (edges g) []); [ | reflexivity ].
  destruct dict; [ reflexivity | ].
  destruct (json_dumps w _ args); reflexivity.
Qed.

(** X3: [json(dict=True)] returns a document exactly when the parser has a
    graph, the metadata check passes and every edge of the graph has a
    [weight]. *)
Theorem json_document_iff (w : World) (self : Parser)
    (args : list (string * pyvalue)) (tr : list event) :
  (exists doc, json w self true args tr = (Ok doc, tr))
  <-> (exists g, graph self = Some g /\ Forall has_weight (edges g))
      /\ metadata_ok self.
Proof.
  unfold json, metadata_ok. split.
  - intros [doc H].
    destruct (graph self) as [g | ]; [ | discriminate ].
    destruct (is_None (protocol self)); [ discriminate | ].
    destruct (is_None (version self)); [ discriminate | ].
    destruct (is_None (metric self)) eqn:Hm; simpl in H.
    + destruct (eq_str (protocol self) "static") eqn:Hs; [ | discriminate ].
      simpl in H. revert H. unfold_monad.
      destruct (json_links_outcome (edges g) []) as [[Hall _] | [_ Hraise]].
      * intros _. split; [ now exists g | auto ].
      * rewrite Hraise. discriminate.
    + revert H. unfold_monad.
      destruct (json_links_outcome (edges g) []) as [[Hall _] | [_ Hraise]].
      * intros _. split; [ now exists g | auto ].
      * rewrite Hraise. discriminate.
  - intros [(g & Hg & Hall) Hmeta].
    destruct (metadata_ok_guards self Hmeta) as (Hp & Hv & Hm).
    rewrite Hg, Hp, Hv, Hm. unfold_monad.
    destruct (json_links_total (edges g) Hall []) as [links Hl].
    rewrite Hl. eexists. reflexivity.
Qed.

(** X4: once the metadata check has passed, [json] raises
    [KeyError('weight')] exactly when an edge of the graph has no [weight]
    attribute, with [dict=True] as with [dict=False]. *)
Theorem json_missing_weight (w : World) (self : Parser) (g : Graph)
    (dict : bool) (args : list (string * pyvalue)) (tr : list event) :
  graph self = Some g ->
  metadata_ok self ->
  json w self dict args tr = (Raise (KeyError "weight"), tr)
  <-> Exists (fun edge => dict_get "weight" (snd edge) = None) (edges g).
Proof.
  intros Hg Hmeta.
  destruct (metadata_ok_guards self Hmeta) as (Hp & Hv & Hm).
  unfold json. rewrite Hg, Hp, Hv, Hm. unfold_monad.
  destruct (json_links_outcome (edges g) []) as [[Hall [links Hl]] | [Hex Hraise]].
  - rewrite Hl. split.
    + destruct dict; [ discriminate | ].
      destruct (json_dumps w _ args); discriminate.
    + intros Hex. now destruct (has_weight_not_missing _ Hall).
  - rewrite Hraise. split; [ intros _; exact Hex | reflexivity ].
Qed.

Lemma json_missing_weight_witness :
  json Demo.world (Samples.olsr_with Samples.half_weighted) true [] []
  = (Raise (KeyError "weight"), []).
Proof.
  apply (json_missing_weight Demo.world
           (Samples.olsr_with Samples.half_weighted) Samples.half_weighted
           true [] [] eq_refl).
  - repeat split. now left.
  - apply Exists_cons_tl, Exists_cons_hd. reflexivity.
Defined.

(** X5: the document that [json] returns carries the attributes of the
    parser as they are ([revision] and [metric] may be [None]), one
    [{'id': node}] entry per node in the order of [graph.nodes()], and as
    many links as the graph has edges. *)
Theorem json_document_content (w : World) (self : Parser) (g : Graph)
    (args : list (string * pyvalue)) (tr tr' : list event) (doc : pyvalue) :
  graph self = Some g ->
  json w self true args tr = (Ok doc, tr') ->
  exists links,
    doc = PDict [("type", PStr "NetworkGraph");
                 ("protocol", protocol self);
                 ("version", version self);
                 ("revision", revision self);
                 ("metric", metric self);
                 ("nodes", PList (map (fun node => PDict [("id", node)]) (nodes g)));
                 ("links", PList links)]
    /\ length links = length (edges g).
Proof.
  intros Hg. unfold json. rewrite Hg.
  destruct (is_None (protocol self)); [ discriminate | ].
  destruct (is_None (version self)); [ discriminate | ].
  destruct (is_None (metric self) && negb (eq_str (protocol self) "static"));
    [ discriminate | ].
  unfold_monad.
  destruct (json_links (edges g) []) as [links | e] eqn:Hl; [ | discriminate ].
  intros H. injection H as <- _. exists links. split; [ reflexivity | ].
  apply json_links_entries in Hl as (entries & -> & Hall). simpl.
  symmetry. exact (Forall2_length Hall).
Qed.

Lemma json_document_content_witness :
  exists links,
    PDict [("type", PStr "NetworkGraph"); ("protocol", PStr "static");
           ("version", PStr "1"); ("revision", PNone); ("metric", PNone);
           ("nodes", PList [PDict [("id", PStr "10.0.0.1")];
                            PDict [("id", PStr "10.0.0.2")]]);
           ("links", PList [PDict [("source", PStr "10.0.0.1");
                                   ("target", PStr "10.0.0.2");
                                   ("weight", PInt 5)]])]
    = PDict [("type", PStr "NetworkGraph"); ("protocol", PStr "static");
             ("version", PStr "1"); ("revision", PNone); ("metric", PNone);
             ("nodes", PList [PDict [("id", PStr "10.0.0.1")];
                              PDict [("id", PStr "10.0.0.2")]]);
             ("links", PList links)]
    /\ length links = 1.
Proof.
  exact (json_document_content Demo.world
           (Demo.with_graph (PStr "static") (PStr "1") PNone) Demo.one_link
           [] [] [] _ eq_refl eq_refl).
Defined.

(** ** [to_python]: traces and errors *)

Section ResolverTraces.

Context (w : World).

Lemma get_file_outcome (self : Parser) (path : string) (tr : list event) :
  _get_file w self path tr
  = (match open_read w path with
     | inr text => Ok (PStr text)
     | inl e => Raise (TopologyRetrievalError (CausedBy e))
     end, tr ++ [EvOpenRead path]).
Proof.
  unfold _get_file. unfold_monad. destruct (open_read w path); reflexivity.
Qed.

Lemma get_http_cases (self : Parser) (url : ParseResult) (tr : list event) :
  exists out,
    _get_http w self url tr
    = (out, tr ++ [EvRequestsGet (geturl url) (verify self) (timeout self)])
    /\ match out with
       | Ok (PStr _) => True
       | Ok _ => False
       | Raise e => fetch_failure e
       end.
Proof.
  unfold _get_http, fetch_failure. unfold_monad.
  destruct (requests_get w (geturl url) (verify self) (timeout self))
    as [e | response].
  - eexists. split; [ reflexivity | ]. left. eauto.
  - destruct (negb (Z.eqb (status_code response) 200)).
    + eexists. split; [ reflexivity | ]. left. eauto.
    + destruct (content_decode response) as [e | text].
      * eexists. split; [ reflexivity | ]. right. eauto.
      * eexists. split; [ reflexivity | exact I ].
Qed.

Lemma get_telnet_cases (self : Parser) (url : ParseResult) (tr : list event) :
  exists out evs,
    _get_telnet w self url tr = (out, tr ++ evs)
    /\ forallb is_network_event evs = true
    /\ match out with
       | Ok PNone => True
       | Ok _ => False
       | Raise e => fetch_failure e
       end.
Proof.
  unfold _get_telnet, fetch_failure.
  destruct (port url) as [p | ].
  2:{ exists (Raise (TopologyRetrievalError (CausedBy (LibError "ValueError")))), [].
      unfold raise. rewrite app_nil_r. repeat split. left. eauto. }
  unfold_monad.
  destruct (telnetlib_Telnet w (hostname url) p (timeout self)) as [e | tn].
  { do 2 eexists. split; [ reflexivity | ]. split; [ reflexivity | ]. left. eauto. }
  destruct (tn_write tn (encode_ascii CRLF)) as [e | ].
  { do 2 eexists. rewrite <- app_assoc. split; [ reflexivity | ].
    split; [ reflexivity | ]. right. eauto. }
  destruct (tn_read_all tn) as [e | bs].
  { do 2 eexists. rewrite <- !app_assoc. split; [ reflexivity | ].
    split; [ reflexivity | ]. right. eauto. }
  destruct (decode_ascii bs) as [e | text].
  { do 2 eexists. rewrite <- !app_assoc. split; [ reflexivity | ].
    split; [ reflexivity | ]. right. eauto. }
  do 2 eexists. rewrite <- !app_assoc. split; [ reflexivity | ].
  split; [ reflexivity | exact I ].
Qed.

Lemma fetch_data_cases (self : Parser) (s : string) (tr : list event) :
  exists out evs,
    fetch_data w self s tr = (out, tr ++ evs)
    /\ fetched w s out
    /\ existsb is_decode_event evs = false
    /\ (contains "://" s = true -> existsb is_file_event evs = false)
    /\ (contains "://" s = false -> existsb is_network_event evs = false).
Proof.
  unfold fetch_data. cbv zeta.
  destruct (contains "://" s) eqn:Hc.
  - destruct (urlparse w s) as [e | url] eqn:Hu.
    { exists (Raise (Propagated e)), []. unfold raise. rewrite app_nil_r.
      repeat split; try discriminate. right. eauto. }
    destruct (existsb (String.eqb (scheme url)) ["http"; "https"]) eqn:Hh.
    + assert (Ht : String.eqb (scheme url) "telnet" = false).
      { simpl in Hh. rewrite orb_false_r in Hh.
        apply orb_true_iff in Hh as [H | H]; apply String.eqb_eq in H;
          now rewrite H. }
      rewrite Ht.
      destruct (get_http_cases self url tr) as (out & Hrun & Hout).
      unfold bind. rewrite Hrun.
      destruct out as [data | e].
      * exists (Ok data), [EvRequestsGet (geturl url) (verify self)
                            (timeout self)].
        repeat split; try discriminate.
        destruct data; simpl in *; auto; contradiction.
      * exists (Raise e), [EvRequestsGet (geturl url) (verify self)
                           (timeout self)].
        repeat split; try discriminate. exact Hout.
    + unfold bind, ret.
      destruct (String.eqb (scheme url) "telnet") eqn:Ht.
      * destruct (get_telnet_cases self url tr)
          as (out & evs & Hrun & Hnet & Hout).
        exists out, evs. split; [ exact Hrun | ].
        assert (Hkinds : existsb is_decode_event evs = false
                         /\ existsb is_file_event evs = false).
        { clear - Hnet. induction evs as [ | ev evs IH ]; [ now split | ].
          simpl in Hnet. apply andb_true_iff in Hnet as [Hev Hrest].
          destruct (IH Hrest) as [IH1 IH2]. simpl. rewrite IH1, IH2.
          destruct ev; simpl in *; try discriminate; now split. }
        destruct Hkinds as [Hdec Hfile].
        apply String.eqb_eq in Ht.
        split; [ | split; [ exact Hdec | split; [ auto | discriminate ] ] ].
        destruct out as [data | e]; simpl in *; [ | exact Hout ].
        destruct data; try contradiction. split; [ exact Hc | eauto ].
      * exists (Ok (PStr s)), []. rewrite app_nil_r.
        repeat split; discriminate.
  - destruct (looks_like_path s).
    + rewrite get_file_outcome.
      exists (match open_read w s with
              | inr text => Ok (PStr text)
              | inl e => Raise (TopologyRetrievalError (CausedBy e))
              end), [EvOpenRead s].
      repeat split; try discriminate.
      destruct (open_read w s); simpl; [ left; eauto | exact I ].
    + exists (Ok (PStr s)), []. unfold ret. rewrite app_nil_r.
      repeat split; discriminate.
Qed.

Lemma decode_data_other (data : pyvalue) (tr : list event) :
  isinstance_string data = false ->
  decode_data w data tr = (Raise TypeError, tr ++ [EvJsonLoads data]).
Proof.
  intros H. destruct data; try discriminate; reflexivity.
Qed.

End ResolverTraces.

Section ResolverProperties.

Context (w : World).

(** X6: what [to_python] returns for a string is always a value that the
    JSON decoder gave, for the text of the last call of the trace: fetched
    text is never returned as it is. *)
Theorem to_python_result_is_decoded (self : Parser) (s : string)
    (tr tr' : list event) (v : pyvalue) :
  to_python w self (PStr s) tr = (Ok v, tr') ->
  exists text evs,
    tr' = tr ++ evs ++ [EvJsonLoads (PStr text)]
    /\ json_decode w text = Some v.
Proof.
  rewrite to_python_string. unfold bind.
  destruct (fetch_data_cases w self s tr) as (out & evs & Hrun & Hout & _).
  rewrite Hrun. destruct out as [data | e]; [ | discriminate ].
  destruct data as [ | | | text | | | ]; simpl in Hout; try contradiction.
  - rewrite decode_data_None. discriminate.
  - rewrite decode_data_text.
    destruct (json_decode w text) as [v' | ] eqn:Hd; [ | discriminate ].
    intros H. injection H as <- <-.
    exists text, evs. split; [ now rewrite app_assoc | exact Hd ].
Qed.

(** X7: each error of the module that [to_python] raises for a string
    has one cause.  A string never gives a [ParserError] or a
    [NetJsonError]; a [TopologyRetrievalError] comes only for a string with
    ["://"] or with a path prefix; a [ParserJsonError] comes only after the
    decoder was called, as the last call, on a text that is not a JSON
    document; and the decoder is given something that is not a string, and
    raises [TypeError], only for a URL that [urlparse] reads with the
    scheme [telnet]. *)
Theorem to_python_string_errors (self : Parser) (s : string)
    (tr tr' : list event) (e : exn) :
  to_python w self (PStr s) tr = (Raise e, tr') ->
  (forall msg, e <> ParserError msg)
  /\ (forall msg, e <> NetJsonError msg)
  /\ (forall cause,
        e = TopologyRetrievalError cause ->
        contains "://" s = true \/ looks_like_path s = true)
  /\ (forall msg,
        e = ParserJsonError msg ->
        msg = "Could not decode JSON data"
        /\ exists text evs,
             tr' = tr ++ evs ++ [EvJsonLoads (PStr text)]
             /\ json_decode w text = None)
  /\ (e = TypeError ->
      contains "://" s = true
      /\ exists url, urlparse w s = inr url /\ scheme url = "telnet").
Proof.
  intros Hrun.
  assert (Hplain : contains "://" s = false -> looks_like_path s = false ->
                   e = ParserJsonError "Could not decode JSON data").
  { intros Hc Hp. revert Hrun. rewrite to_python_string. unfold bind.
    rewrite (fetch_data_inline w self s tr Hc Hp), decode_data_text.
    destruct (json_decode w s); [ discriminate | congruence ]. }
  revert Hrun. rewrite to_python_string. unfold bind.
  destruct (fetch_data_cases w self s tr) as (out & evs & Hrun & Hout & _).
  rewrite Hrun. destruct out as [data | e'].
  - destruct data as [ | | | text | | | ]; simpl in Hout; try contradiction.
    + rewrite decode_data_None. intros H. injection H as <- _.
      repeat split; try discriminate; apply Hout.
    + rewrite decode_data_text.
      destruct (json_decode w text) eqn:Hd; [ discriminate | ].
      intros H. injection H as <- <-.
      split; [ discriminate | ]. split; [ discriminate | ].
      split; [ discriminate | ]. split; [ | discriminate ].
      intros msg Hmsg. injection Hmsg as <-. split; [ reflexivity | ].
      exists text, evs. split; [ now rewrite app_assoc | exact Hd ].
  - intros H. injection H as <- _.
    destruct Hout as [[cause ->] | [lib ->]].
    + split; [ discriminate | ]. split; [ discriminate | ].
      split; [ | split; discriminate ].
      intros _ _.
      destruct (contains "://" s) eqn:Hc; [ now left | ].
      destruct (looks_like_path s) eqn:Hp; [ now right | ].
      discriminate (Hplain eq_refl eq_refl).
    + repeat split; discriminate.
Qed.

(** X8: on a string, [to_python] uses one way of fetching at most: a
    string with ["://"] never opens a file, any other string never goes to
    the network, and the decoder is called once at most. *)
Theorem to_python_one_fetch (self : Parser) (s : string) (tr : list event) :
  exists out evs,
    to_python w self (PStr s) tr = (out, tr ++ evs)
    /\ (contains "://" s = true -> existsb is_file_event evs = false)
    /\ (contains "://" s = false -> existsb is_network_event evs = false)
    /\ length (filter is_decode_event evs) <= 1.
Proof.
  rewrite to_python_string. unfold bind.
  destruct (fetch_data_cases w self s tr)
    as (out & evs & Hrun & _ & Hdec & Hfile & Hnet).
  rewrite Hrun.
  assert (Hnone : filter is_decode_event evs = []).
  { apply filter_none. intros ev Hin.
    destruct (is_decode_event ev) eqn:Hev; [ | reflexivity ].
    assert (existsb is_decode_event evs = true)
      by (apply existsb_exists; eauto).
    congruence. }
  destruct out as [data | e].
  - assert (Hd : exists out', decode_data w data (tr ++ evs)
                             = (out', (tr ++ evs) ++ [EvJsonLoads data])).
    { destruct data as [ | | | text | | | ];
        try (eexists; apply decode_data_other; reflexivity).
      eexists. apply decode_data_text. }
    destruct Hd as [out' Hd]. rewrite Hd.
    exists out', (evs ++ [EvJsonLoads data]).
    split; [ now rewrite app_assoc | ].
    rewrite !existsb_app, filter_app, Hnone. simpl.
    repeat split.
    + intros Hc. now rewrite (Hfile Hc).
    + intros Hc. now rewrite (Hnet Hc).
    + lia.
  - exists (Raise e), evs. rewrite Hnone. simpl. repeat split; auto.
Qed.

(** X9: a string without ["://"] that starts like a path is read as a file,
    once: when the read fails, [to_python] raises a
    [TopologyRetrievalError] that wraps the failure and decodes nothing;
    when it gives a text, the result is the decoding of that text. *)
Theorem to_python_file (self : Parser) (s : string) (tr : list event) :
  contains "://" s = false ->
  looks_like_path s = true ->
  (forall e,
     open_read w s = inl e ->
     to_python w self (PStr s) tr
     = (Raise (TopologyRetrievalError (CausedBy e)), tr ++ [EvOpenRead s]))
  /\ (forall text,
        open_read w s = inr text ->
        to_python w self (PStr s) tr
        = (match json_decode w text with
           | Some v => Ok v
           | None => Raise (ParserJsonError "Could not decode JSON data")
           end, tr ++ [EvOpenRead s; EvJsonLoads (PStr text)])).
Proof.
  intros Hc Hp. rewrite to_python_string. unfold fetch_data, bind.
  rewrite Hc, Hp, get_file_outcome. split.
  - intros e He. now rewrite He.
  - intros text Ht. rewrite Ht, decode_data_text.
    now rewrite <- app_assoc.
Qed.

(** X10: for an [http] or [https] URL the decoder is reached only with the
    body of a 200 response: a failed request and another status are a
    [TopologyRetrievalError], a body that cannot be decoded to text is the
    error of the library, and in these three cases nothing is decoded. *)
Theorem to_python_http_outcomes (self : Parser) (s : string)
    (parsed : ParseResult) (tr : list event) :
  contains "://" s = true ->
  urlparse w s = inr parsed ->
  existsb (String.eqb (scheme parsed)) ["http"; "https"] = true ->
  let url := geturl parsed in
  let request := EvRequestsGet url (verify self) (timeout self) in
  match requests_get w url (verify self) (timeout self) with
  | inl e =>
      to_python w self (PStr s) tr
      = (Raise (TopologyRetrievalError (CausedBy e)), tr ++ [request])
  | inr response =>
      if Z.eqb (status_code response) 200 then
        match content_decode response with
        | inr body =>
            to_python w self (PStr s) tr
            = (match json_decode w body with
               | Some v => Ok v
               | None => Raise (ParserJsonError "Could not decode JSON data")
               end, tr ++ [request; EvJsonLoads (PStr body)])
        | inl e =>
            to_python w self (PStr s) tr
            = (Raise (Propagated e), tr ++ [request])
        end
      else
        to_python w self (PStr s) tr
        = (Raise (TopologyRetrievalError (BadStatus (status_code response))),
           tr ++ [request])
  end.
Proof.
  intros Hc Hu Hs. cbv zeta. rewrite (to_python_http w self s parsed tr Hc Hu Hs).
  unfold _get_http. unfold_monad.
  destruct (requests_get w (geturl parsed) (verify self) (timeout self))
    as [e | response]; [ reflexivity | ].
  destruct (Z.eqb (status_code response) 200); simpl; [ | reflexivity ].
  destruct (content_decode response) as [e | body]; [ reflexivity | ].
  rewrite decode_data_text. now rewrite <- app_assoc.
Qed.

Lemma prefix_head (a b : ascii) (p s : string) :
  String.prefix (String a p) (String b s)
  = if Ascii.eqb a b then String.prefix p s else false.
Proof.
  change (String.prefix (String a p) (String b s))
    with (if ascii_dec a b then String.prefix p s else false).
  destruct (ascii_dec a b) as [E | E], (Ascii.eqb_spec a b); congruence.
Qed.

Lemma plain_start_not_path (s : string) :
  plain_start s -> looks_like_path s = false.
Proof.
  unfold plain_start, looks_like_path, startswith, slice_1_3.
  destruct s as [ | c1 s1 ]; [ reflexivity | ].
  intros [(Hdot & Hslash & Hback) Hdrive].
  assert (E1 : Ascii.eqb "." c1 = false) by (apply Ascii.eqb_neq; congruence).
  assert (E2 : Ascii.eqb "/" c1 = false) by (apply Ascii.eqb_neq; congruence).
  assert (E3 : Ascii.eqb "\" c1 = false) by (apply Ascii.eqb_neq; congruence).
  cbn [existsb]. rewrite !prefix_head, E1, E2, E3. cbn [orb].
  destruct s1 as [ | c2 s2 ]; [ reflexivity | ].
  destruct s2 as [ | c3 s3 ]; cbn [String.substring]; rewrite prefix_head.
  - destruct (Ascii.eqb ":" c2); reflexivity.
  - destruct (Ascii.eqb_spec ":" c2) as [<- | _]; [ | reflexivity ].
    rewrite prefix_head.
    destruct (Ascii.eqb_spec "\" c3) as [<- | _]; [ | reflexivity ].
    destruct Hdrive. now split.
Qed.

(** X11: a string without ["://"] whose first character is none of [.],
    [/] and the backslash, and that has no drive prefix, is never opened as
    a file, also when it is the name of one: it goes to the decoder as it
    is. *)
Theorem to_python_plain_name (self : Parser) (s : string) (tr : list event) :
  contains "://" s = false ->
  plain_start s ->
  to_python w self (PStr s) tr
  = (match json_decode w s with
     | Some v => Ok v
     | None => Raise (ParserJsonError "Could not decode JSON data")
     end, tr ++ [EvJsonLoads (PStr s)]).
Proof.
  intros Hc Hp. rewrite to_python_string. unfold bind.
  rewrite (fetch_data_inline w self s tr Hc (plain_start_not_path s Hp)).
  apply decode_data_text.
Qed.

(** X12: [_get_telnet] turns into a [TopologyRetrievalError] what fails
    while the connection is made: a port that cannot be read from the URL,
    before any connection is tried, and a connection that is refused,
    before anything is written or read. *)
Theorem get_telnet_connect_failure (self : Parser) (url : ParseResult)
    (tr : list event) :
  (port url = None ->
   _get_telnet w self url tr
   = (Raise (TopologyRetrievalError (CausedBy (LibError "ValueError"))), tr))
  /\ (forall url_port e,
        port url = Some url_port ->
        telnetlib_Telnet w (hostname url) url_port (timeout self) = inl e ->
        _get_telnet w self url tr
        = (Raise (TopologyRetrievalError (CausedBy e)),
           tr ++ [EvTelnetOpen (hostname url) url_port (timeout self)])).
Proof.
  unfold _get_telnet. split.
  - intros Hp. now rewrite Hp.
  - intros url_port e Hp Ht. rewrite Hp. unfold_monad. now rewrite Ht.
Qed.

(** X13: once the telnet connection is open, a failure of [write], of
    [read_all] or of the ASCII decoding is not turned into a
    [TopologyRetrievalError]: the error of the library leaves
    [_get_telnet], and the connection is not closed. *)
Theorem get_telnet_late_failure (self : Parser) (url : ParseResult)
    (url_port : pyvalue) (tn : Telnet) (tr : list event) :
  port url = Some url_port ->
  telnetlib_Telnet w (hostname url) url_port (timeout self) = inr tn ->
  let opened := EvTelnetOpen (hostname url) url_port (timeout self) in
  let written := EvTelnetWrite (encode_ascii CRLF) in
  (forall e,
     tn_write tn (encode_ascii CRLF) = Some e ->
     _get_telnet w self url tr = (Raise (Propagated e), tr ++ [opened; written]))
  /\ (forall e,
        tn_write tn (encode_ascii CRLF) = None ->
        tn_read_all tn = inl e ->
        _get_telnet w self url tr
        = (Raise (Propagated e), tr ++ [opened; written; EvTelnetReadAll]))
  /\ (forall bs e,
        tn_write tn (encode_ascii CRLF) = None ->
        tn_read_all tn = inr bs ->
        decode_ascii bs = inl e ->
        _get_telnet w self url tr
        = (Raise (Propagated e), tr ++ [opened; written; EvTelnetReadAll])).
Proof.
  intros Hp Ht. cbv zeta. unfold _get_telnet. rewrite Hp. unfold_monad.
  rewrite Ht. repeat split.
  - intros e Hw. rewrite Hw. now rewrite <- app_assoc.
  - intros e Hw Hr. rewrite Hw, Hr. now rewrite <- !app_assoc.
  - intros bs e Hw Hr Hd. rewrite Hw, Hr, Hd. now rewrite <- !app_assoc.
Qed.

End ResolverProperties.

(** ** The resolver on the sample data *)

Lemma to_python_result_is_decoded_witness :
  exists text evs,
    [EvOpenRead "./topology.json"; EvJsonLoads (PStr "{}")]
    = [] ++ evs ++ [EvJsonLoads (PStr text)]
    /\ json_decode Demo.world text = Some (PDict []).
Proof.
  exact (to_python_result_is_decoded Demo.world Demo.base_parser
           "./topology.json" [] _ (PDict []) eq_refl).
Defined.

Lemma to_python_string_errors_witness :
  exists text evs,
    [EvOpenRead "./broken.json"; EvJsonLoads (PStr "{not valid")]
    = [] ++ evs ++ [EvJsonLoads (PStr text)]
    /\ json_decode Demo.world text = None.
Proof.
  exact (proj2 (proj1 (proj2 (proj2 (proj2
           (to_python_string_errors Demo.world Demo.base_parser
              "./broken.json" [] _ _ eq_refl)))) _ eq_refl)).
Defined.

Lemma to_python_file_witness :
  to_python Demo.world Demo.base_parser (PStr "./absent.json") []
  = (Raise (TopologyRetrievalError (CausedBy (LibError "IOError"))),
     [EvOpenRead "./absent.json"])
  /\ to_python Demo.world Demo.base_parser (PStr "./topology.json") []
     = (Ok (PDict []), [EvOpenRead "./topology.json"; EvJsonLoads (PStr "{}")]).
Proof.
  split.
  - apply (proj1 (to_python_file Demo.world Demo.base_parser "./absent.json" []
                    eq_refl eq_refl)). reflexivity.
  - apply (proj2 (to_python_file Demo.world Demo.base_parser "./topology.json" []
                    eq_refl eq_refl) "{}"). reflexivity.
Defined.

Lemma to_python_http_outcomes_witness :
  to_python Demo.world Demo.base_parser
    (PStr "https://example.org/latin1.json") []
  = (Raise (Propagated (LibError "UnicodeDecodeError")),
     [EvRequestsGet "https://example.org/latin1.json" (PBool true) PNone]).
Proof.
  exact (to_python_http_outcomes Demo.world Demo.base_parser
           "https://example.org/latin1.json"
           (Url.parse "https://example.org/latin1.json") []
           eq_refl eq_refl eq_refl).
Defined.

Lemma to_python_plain_name_witness :
  to_python Demo.world Demo.base_parser (PStr "topology.json") []
  = (Raise (ParserJsonError "Could not decode JSON data"),
     [EvJsonLoads (PStr "topology.json")]).
Proof.
  apply (to_python_plain_name Demo.world Demo.base_parser "topology.json" []).
  - reflexivity.
  - split; [ repeat split; discriminate | ].
    intros [H _]. discriminate H.
Defined.

Lemma get_telnet_late_failure_witness :
  _get_telnet (Samples.world_with_telnet Samples.telnet_broken) Demo.base_parser
    (Url.parse "telnet://127.0.0.1:9090") []
  = (Raise (Propagated (LibError "BrokenPipeError")),
     [EvTelnetOpen (PStr "127.0.0.1") (PInt 9090) PNone;
      EvTelnetWrite (encode_ascii CRLF)])
  /\ _get_telnet
       (Samples.world_with_telnet (Samples.telnet_sending [ascii_of_nat 233]))
       Demo.base_parser (Url.parse "telnet://127.0.0.1:9090") []
     = (Raise (Propagated (LibError "UnicodeDecodeError")),
        [EvTelnetOpen (PStr "127.0.0.1") (PInt 9090) PNone;
         EvTelnetWrite (encode_ascii CRLF);
         EvTelnetReadAll]).
Proof.
  split.
  - apply (proj1 (get_telnet_late_failure
                    (Samples.world_with_telnet Samples.telnet_broken)
                    Demo.base_parser (Url.parse "telnet://127.0.0.1:9090")
                    (PInt 9090) Samples.telnet_broken [] eq_refl eq_refl)).
    reflexivity.
  - apply (proj2 (proj2 (get_telnet_late_failure
                    (Samples.world_with_telnet
                       (Samples.telnet_sending [ascii_of_nat 233]))
                    Demo.base_parser (Url.parse "telnet://127.0.0.1:9090")
                    (PInt 9090) (Samples.telnet_sending [ascii_of_nat 233]) []
                    eq_refl eq_refl)) [ascii_of_nat 233]); reflexivity.
Defined.

(** ** [__init__]: construction *)

(** X14: a [BaseParser] built from a dict is built without any call that
    leaves the module, keeps the dict as [original_data], and has no graph:
    [json] on it raises [NotImplementedError]. *)
Theorem init_base_from_dict (w : World) (d : list (string * pyvalue))
    (v r m t vf : pyvalue) (tr : list event) :
  exists self,
    __init__ w BaseParser (PDict d) v r m t vf tr = (Ok self, tr)
    /\ original_data self = PDict d
    /\ graph self = None
    /\ forall dict args tr2,
         json w self dict args tr2 = (Raise NotImplementedError, tr2).
Proof.
  eexists. split; [ reflexivity | ]. repeat split.
Qed.

(** The constructor resolves the data, then runs [parse] for a subclass. *)
Lemma init_resolves_then_parses (w : World) (cls : ParserClass)
    (data v r m t vf : pyvalue) (tr : list event) :
  let self := init_attributes cls v r m t vf in
  match to_python w self data tr with
  | (Raise e, tr') => __init__ w cls data v r m t vf tr = (Raise e, tr')
  | (Ok d, tr') =>
      __init__ w cls data v r m t vf tr
      = if is_BaseParser cls
        then (Ok (set_original_data self d), tr')
        else parse cls (set_original_data self d) d tr'
  end.
Proof.
  cbv zeta. unfold __init__, bind. cbv zeta.
  destruct (to_python w _ data tr) as [[d | e] tr']; [ | reflexivity ].
  destruct (is_BaseParser cls); reflexivity.
Qed.

(** X15: the [timeout] and the [verify] flag given to the constructor
    are used as they are, also when they are [0] or [False]: for an [http]
    or [https] URL, the first call of the constructor of the base class is
    the GET on the URL with this flag and this timeout. *)
Theorem init_request_uses_timeout_verify (w : World) (s : string)
    (url : ParseResult) (v r m t vf : pyvalue) (tr : list event) :
  contains "://" s = true ->
  urlparse w s = inr url ->
  existsb (String.eqb (scheme url)) ["http"; "https"] = true ->
  exists out evs,
    __init__ w BaseParser (PStr s) v r m t vf tr
    = (out, tr ++ EvRequestsGet (geturl url) vf t :: evs).
Proof.
  intros Hc Hu Hs.
  pose proof (init_resolves_then_parses w BaseParser (PStr s) v r m t vf tr)
    as Hinit. cbv zeta in Hinit.
  rewrite (to_python_http w _ s url tr Hc Hu Hs) in Hinit. unfold bind in Hinit.
  destruct (get_http_cases w (init_attributes BaseParser v r m t vf) url tr)
    as (out & Hrun & _).
  rewrite Hrun in Hinit. simpl in Hinit. destruct out as [data | e].
  - assert (Hd : exists out',
               decode_data w data (tr ++ [EvRequestsGet (geturl url) vf t])
               = (out', (tr ++ [EvRequestsGet (geturl url) vf t])
                        ++ [EvJsonLoads data])).
    { destruct data as [ | | | text | | | ];
        try (eexists; apply decode_data_other; reflexivity).
      eexists. apply decode_data_text. }
    destruct Hd as [out' Hd]. rewrite Hd in Hinit.
    rewrite <- app_assoc in Hinit. simpl in Hinit.
    destruct out' as [d | e]; rewrite Hinit; do 2 eexists; reflexivity.
  - rewrite Hinit. exists (Raise e), []. reflexivity.
Qed.

Lemma init_request_uses_timeout_verify_witness :
  exists out evs,
    __init__ Demo.world BaseParser (PStr "https://example.org/down.json")
      PNone PNone PNone (PInt 0) (PBool false) []
    = (out, [] ++ EvRequestsGet "https://example.org/down.json"
                     (PBool false) (PInt 0) :: evs).
Proof.
  exact (init_request_uses_timeout_verify Demo.world
           "https://example.org/down.json"
           (Url.parse "https://example.org/down.json")
           PNone PNone PNone (PInt 0) (PBool false) [] eq_refl eq_refl eq_refl).
Defined.

(** ** [json] with [dict=True] *)

(** X16: with [dict=True], [json] does not look at its keyword arguments
    and calls no library: the document is the same for every world and for
    all arguments. *)
Theorem json_dict_ignores_args (w w' : World) (self : Parser)
    (args args' : list (string * pyvalue)) (tr : list event) :
  json w self true args tr = json w' self true args' tr.
Proof.
  unfold json.
  destruct (graph self) as [g | ]; [ | reflexivity ].
  destruct (is_None (protocol self)); [ reflexivity | ].
  destruct (is_None (version self)); [ reflexivity | ].
  destruct (is_None (metric self) && negb (eq_str (protocol self) "static"));
    reflexivity.
Qed.

(** ** A URL that [urlparse] refuses *)

(** X17: [urlparse] is called outside of any [try]: when it raises on a
    string with ["://"], its error leaves [to_python] as it is, and nothing
    is fetched or decoded. *)
Theorem to_python_urlparse_error (w : World) (self : Parser) (s : string)
    (e : lib_error) (tr : list event) :
  contains "://" s = true ->
  urlparse w s = inl e ->
  to_python w self (PStr s) tr = (Raise (Propagated e), tr).
Proof.
  intros Hc Hu. rewrite to_python_string. unfold fetch_data, bind.
  now rewrite Hc, Hu.
Qed.

Lemma to_python_urlparse_error_witness :
  to_python Demo.world Demo.base_parser (PStr "http://[::1") []
  = (Raise (Propagated (LibError "ValueError")), []).
Proof.
  apply (to_python_urlparse_error Demo.world Demo.base_parser "http://[::1");
    reflexivity.
Defined.
